(** * Subsection grades and course-overview signal handlers

    A shallow embedding of
    - [lms/djangoapps/grades/subsection_grade.py]
    - [openedx/core/djangoapps/content/course_overviews/signals.py]
    followed by the properties stated about them. *)

From Stdlib Require Import ZArith SpecFloat.
From stdpp Require Import gmap strings list fin_maps.

Set Default Proof Using "Type".

(** ** Python values used by both modules *)

Module Py.

(** The exceptions that the modelled code can raise or catch. *)
Inductive Exception :=
| KeyError
| AssertionError
| ZeroDivisionError
| NotImplementedError
| AttributeError
| DoesNotExist
| IOError.

Inductive result (A : Type) :=
| Ok (a : A)
| Raise (e : Exception).
Arguments Ok {A} a.
Arguments Raise {A} e.

(** Code that reads and writes an object or a store of type [S] and may
    raise: the state survives an exception, as a Python object does. *)
Definition M (S A : Type) : Type := S -> result A * S.

Definition ret {S A} (a : A) : M S A := fun s => (Ok a, s).

Definition raise {S A} (e : Exception) : M S A := fun s => (Raise e, s).

Definition bind {S A B} (c : M S A) (k : A -> M S B) : M S B :=
  fun s => match c s with
           | (Ok a, s') => k a s'
           | (Raise e, s') => (Raise e, s')
           end.

Definition get {S} : M S S := fun s => (Ok s, s).

Definition modify {S} (f : S -> S) : M S unit := fun s => (Ok tt, f s).

Definition lift {S A} (r : result A) : M S A := fun s => (r, s).

(** Sequencing of code that only computes a value or raises. *)
Definition rbind {A B} (r : result A) (k : A -> result B) : result B :=
  match r with
  | Ok a => k a
  | Raise e => Raise e
  end.

(** [datetime] values, as seconds since the epoch. *)
Definition datetime : Type := Z.

(** Python floats are IEEE 754 binary64 values. *)
Definition float : Type := spec_float.
Definition prec : Z := 53.
Definition emax : Z := 1024.

(** [0.0] *)
Definition fzero : float := S754_zero false.

Definition is_zero (x : float) : bool :=
  match x with S754_zero _ => true | _ => false end.

(** [x + y] on floats. *)
Definition fadd (x y : float) : float := SFadd prec emax x y.

(** [x / y] on floats: Python raises [ZeroDivisionError] on a zero divisor
    of either sign instead of producing an infinity or a NaN. *)
Definition truediv (x y : float) : result float :=
  if is_zero y then Raise ZeroDivisionError else Ok (SFdiv prec emax x y).

(** [x > 0]; false on a NaN. *)
Definition gt0 (x : float) : bool := SFltb fzero x.

(** [collections.OrderedDict]: the items in insertion order. *)
Definition OrderedDict (K V : Type) : Type := list (K * V).

Section OrderedDict.
Context {K V : Type} `{EqDecision K}.

(** [d[k] = v]: a known key keeps its position and takes the new value, a
    new key goes to the end. *)
Fixpoint setitem (k : K) (v : V) (d : OrderedDict K V) : OrderedDict K V :=
  match d with
  | [] => [(k, v)]
  | (k', v') :: d' =>
      if decide (k = k') then (k, v) :: d' else (k', v') :: setitem k v d'
  end.

Definition keys (d : OrderedDict K V) : list K := d.*1.

Definition values (d : OrderedDict K V) : list V := d.*2.

Definition iteritems (d : OrderedDict K V) : list (K * V) := d.

End OrderedDict.

End Py.

Import Py.

Declare Scope py_scope.
Delimit Scope py_scope with py.
Notation "x <- c ;; k" := (bind c (fun x => k))
  (at level 100, c at next level, right associativity) : py_scope.
Notation "c ;;; k" := (bind c (fun _ => k))
  (at level 100, right associativity) : py_scope.
Notation "x <-? r ;; k" := (rbind r (fun x => k))
  (at level 100, r at next level, right associativity) : py_scope.

(** ** [xmodule.graders]: scores and their aggregation *)

Module ProblemScore.

(** One scored unit: earned and possible points (raw and weighted), the
    weight, the graded flag and the time of the first attempt. *)
Record t := mk {
  raw_earned : float;
  raw_possible : float;
  earned : float;
  possible : float;
  weight : option float;
  graded : bool;
  first_attempted : option datetime
}.

End ProblemScore.

Module AggregatedScore.

(** [AggregatedScore(tw_earned, tw_possible, graded, first_attempted)]. *)
Record t := mk {
  earned : float;
  possible : float;
  graded : bool;
  first_attempted : option datetime
}.

(** Modelled from the spec: the [attempted] property of a score, which
    [xmodule/graders.py] (not among the sources) defines on the score base
    class; the spec's "attempt state" is whether a first attempt is
    recorded. *)
Definition attempted (s : t) : bool :=
  match first_attempted s with Some _ => true | None => false end.

End AggregatedScore.

Module graders.

Definition float_sum (l : list float) : float := fold_left fadd l fzero.

(** The earliest of a list of timestamps, [None] for the empty list. *)
Definition min_or_none (l : list datetime) : option datetime :=
  match l with
  | [] => None
  | t :: ts => Some (fold_left Z.min ts t)
  end.

Definition total (graded : bool) (scores : list ProblemScore.t) : AggregatedScore.t :=
  AggregatedScore.mk
    (float_sum (map ProblemScore.earned scores))
    (float_sum (map ProblemScore.possible scores))
    graded
    (min_or_none (omap ProblemScore.first_attempted scores)).

(** Modelled from the spec: [graders.aggregate_scores] of
    [xmodule/graders.py], which is not among the sources.  "Aggregated
    score: sum of earned and possible points across a set of problem
    scores, split into an all attempted work aggregate and a graded work
    only aggregate; carries the timestamp of first attempt across the
    set", and "graded-only is a filtered subset of all-total's inputs".
    The pair is (all_total, graded_total). *)
Definition aggregate_scores (scores : list ProblemScore.t)
  : AggregatedScore.t * AggregatedScore.t :=
  (total false scores, total true (List.filter ProblemScore.graded scores)).

End graders.

(** ** [lms/djangoapps/grades/subsection_grade.py] *)

Module subsection_grade.

Definition UsageKey : Type := string.
Definition CourseKey : Type := string.
Definition UserId : Type := Z.

(** A block of the course structure.  [has_score] is [None] when the
    block has no such attribute; the other fields are what the score
    lookup reads from the latest block content. *)
Record Block := {
  block_location : string;
  has_score : option bool;
  block_weight : option float;
  block_graded : bool;
  block_raw_possible : option float
}.

(** [getattr(block, 'has_score', False)], as a condition. *)
Definition getattr_has_score (block : Block) : bool := default false (has_score block).

(** The course's block structure: [structure[block_key]] is a lookup that
    raises [KeyError] on a missing key. *)
Abbreviation BlockStructure := (gmap UsageKey Block).

Definition getitem (structure : BlockStructure) (block_key : UsageKey) : result Block :=
  match structure !! block_key with
  | Some block => Ok block
  | None => Raise KeyError
  end.

Module BlockRecord.

(** [BlockRecord(locator, weight, raw_possible, graded)]: a block as
    stored with a persisted grade. *)
Record t := mk {
  locator : UsageKey;
  weight : option float;
  raw_possible : float;
  graded : bool
}.

End BlockRecord.

(** Rows of the two live score sources, keyed by block. *)
Record SubmissionScore := {
  points_earned : float;
  points_possible : float;
  created_at : datetime
}.

Record CsmScore := {
  csm_raw_earned : float;
  csm_raw_possible : float;
  csm_created : datetime
}.

Abbreviation SubmissionsScores := (gmap UsageKey SubmissionScore).
Abbreviation CsmScores := (gmap UsageKey CsmScore).

(** An instructor override attached to a persisted grade (a row handle). *)
Definition Override : Type := Z.

Module PersistentSubsectionGrade.

(** The fields of a persisted grade record that the grade classes read.
    [override] is [None] when the record has no such attribute
    ([hasattr(model, 'override')] is false). *)
Record t := mk {
  earned_all : float;
  possible_all : float;
  earned_graded : float;
  possible_graded : float;
  first_attempted : option datetime;
  visible_blocks : list BlockRecord.t;
  override : option (option Override)
}.

End PersistentSubsectionGrade.

(** The subsection block handed to the constructors.  The optional
    fields are the attributes read with [getattr] and a default. *)
Record Subsection := {
  location : UsageKey;
  sub_format : option string;
  sub_due : option datetime;
  sub_graded : option bool;
  sub_show_correctness : option string;
  sub_course_version : option string;
  subtree_edited_on : option datetime
}.

Record CourseData := { structure : BlockStructure }.

Record SubsectionGradeFactory := {
  course_data : CourseData;
  _submissions_scores : SubmissionsScores;
  _csm_scores : CsmScores
}.

Record Student := { id : UserId }.

Abbreviation ProblemScores := (OrderedDict UsageKey ProblemScore.t).

(** [if problem_score: problem_scores[key] = problem_score].  The score
    classes define neither [__nonzero__] nor [__len__], so a score object
    is true and only [None] is false. *)
Definition setitem_if_truthy (key : UsageKey) (problem_score : option ProblemScore.t)
    (problem_scores : ProblemScores) : ProblemScores :=
  match problem_score with
  | Some score => setitem key score problem_scores
  | None => problem_scores
  end.

Module SubsectionGradeBase.

(** The attributes set by [SubsectionGradeBase.__init__]. *)
Record t := mk {
  location : UsageKey;
  display_name : string;
  url_name : string;
  format : string;
  due : option datetime;
  graded : bool;
  show_correctness : string;
  course_version : option string;
  subtree_edited_timestamp : option datetime;
  override : option Override
}.

End SubsectionGradeBase.

(** The interface of the grade classes: [all_total] is read through the
    object (an attribute, or a lazily computed property that writes its
    cache), and may hold [None] in a grade that was never populated. *)
Class SubsectionGrade (G : Type) := {
  all_total : M G (option AggregatedScore.t);
  attempted_graded : M G bool;
  percent_graded : M G float
}.

(** [SubsectionGradeBase.attempted] *)
Definition attempted {G} `{SubsectionGrade G} : M G bool :=
  (t <- all_total ;;
   match t with
   | None => raise AssertionError
   | Some total => ret (AggregatedScore.attempted total)
   end)%py.

(** An object of the base class alone: [SubsectionGradeBase.__init__]
    assigns no [all_total], so reading it raises [AttributeError]; the two
    properties are the base class's, which raise [NotImplementedError]. *)
#[export] Instance SubsectionGradeBase_grade : SubsectionGrade SubsectionGradeBase.t := {
  all_total := raise AttributeError;
  attempted_graded := raise NotImplementedError;
  percent_graded := raise NotImplementedError
}.

(** [@lazy]: the first read computes the value and stores it in the
    object, later reads return the stored value. *)
Definition lazy {S A} (cache : S -> option A) (store : A -> S -> S) (compute : M S A) : M S A :=
  fun self =>
    match cache self with
    | Some v => (Ok v, self)
    | None =>
        match compute self with
        | (Ok v, self') => (Ok v, store v self')
        | (Raise e, self') => (Raise e, self')
        end
    end.

Module ZeroSubsectionGrade.

Record t := mk {
  base : SubsectionGradeBase.t;
  course_data : CourseData;
  _aggregate_scores_cache : option (AggregatedScore.t * AggregatedScore.t);
  problem_scores_cache : option ProblemScores
}.

Definition set_problem_scores (v : ProblemScores) (self : t) : t :=
  mk (base self) (course_data self) (_aggregate_scores_cache self) (Some v).

Definition set_aggregate_scores (v : AggregatedScore.t * AggregatedScore.t) (self : t) : t :=
  mk (base self) (course_data self) (Some v) (problem_scores_cache self).

End ZeroSubsectionGrade.

Module NonZeroSubsectionGrade.

(** The attributes set by [NonZeroSubsectionGrade.__init__]; both
    subclasses pass it two [AggregatedScore] objects.  The override is
    the attribute [override] of the base object. *)
Record t := mk {
  base : SubsectionGradeBase.t;
  all_total : AggregatedScore.t;
  graded_total : AggregatedScore.t
}.

Definition attempted_graded (self : t) : bool :=
  match AggregatedScore.first_attempted (graded_total self) with
  | Some _ => true
  | None => false
  end.

Definition percent_graded (self : t) : result float :=
  if gt0 (AggregatedScore.possible (graded_total self))
  then truediv (AggregatedScore.earned (graded_total self))
               (AggregatedScore.possible (graded_total self))
  else Ok fzero.

End NonZeroSubsectionGrade.

Module NonZeroObject.

(** The attributes of a [NonZeroSubsectionGrade] object as Python holds
    them: [__init__] stores the two totals it is given without a check,
    so either may be [None]. *)
Record t := mk {
  base : SubsectionGradeBase.t;
  all_total : option AggregatedScore.t;
  graded_total : option AggregatedScore.t
}.

(** The object whose totals are the two [AggregatedScore] objects of a
    [NonZeroSubsectionGrade.t]. *)
Definition of_grade (self : NonZeroSubsectionGrade.t) : t :=
  mk (NonZeroSubsectionGrade.base self)
     (Some (NonZeroSubsectionGrade.all_total self))
     (Some (NonZeroSubsectionGrade.graded_total self)).

(** [self.graded_total.first_attempted is not None]; [None] has no such
    attribute. *)
Definition attempted_graded (self : t) : result bool :=
  match graded_total self with
  | Some total =>
      Ok (match AggregatedScore.first_attempted total with
          | Some _ => true
          | None => false
          end)
  | None => Raise AttributeError
  end.

Definition percent_graded (self : t) : result float :=
  match graded_total self with
  | Some total =>
      if gt0 (AggregatedScore.possible total)
      then truediv (AggregatedScore.earned total) (AggregatedScore.possible total)
      else Ok fzero
  | None => Raise AttributeError
  end.

End NonZeroObject.

Module ReadSubsectionGrade.

Record t := mk {
  super : NonZeroSubsectionGrade.t;
  model : PersistentSubsectionGrade.t;
  factory : SubsectionGradeFactory;
  problem_scores_cache : option ProblemScores
}.

Definition set_problem_scores (v : ProblemScores) (self : t) : t :=
  mk (super self) (model self) (factory self) (Some v).

End ReadSubsectionGrade.

Module CreateSubsectionGrade.

Record t := mk {
  super : NonZeroSubsectionGrade.t;
  problem_scores : ProblemScores
}.

End CreateSubsectionGrade.

(** The keyword arguments of [PersistentSubsectionGrade.update_or_create_grade]. *)
Record ModelParams := {
  user_id : UserId;
  usage_key : UsageKey;
  p_course_version : option string;
  p_subtree_edited_timestamp : option datetime;
  p_earned_all : float;
  p_possible_all : float;
  p_earned_graded : float;
  p_possible_graded : float;
  p_visible_blocks : list BlockRecord.t;
  p_first_attempted : option datetime
}.

Section Classes.

(** Collaborators of the module that are not part of it: the block
    helpers of [xmodule.block_metadata_utils], the traversal of the block
    structure, the score lookup of [grades.scores] and the persistence
    call of [grades.models]. *)
Variable display_name_with_default_escaped : Subsection -> string.
Variable url_name_for_block : Subsection -> string.
Variable possibly_scored : UsageKey -> bool.
Variable post_order_traversal : BlockStructure -> (UsageKey -> bool) -> UsageKey -> list UsageKey.
Variable get_score :
  SubmissionsScores -> CsmScores -> option BlockRecord.t -> Block -> option ProblemScore.t.
Variable Store : Type.
Variable update_or_create_grade : ModelParams -> M Store PersistentSubsectionGrade.t.
Variable bulk_create_grades :
  list ModelParams -> UserId -> CourseKey -> M Store (list PersistentSubsectionGrade.t).

(** [SubsectionGradeBase.__init__] *)
Definition SubsectionGradeBase_init (subsection : Subsection) : SubsectionGradeBase.t :=
  SubsectionGradeBase.mk
    (location subsection)
    (display_name_with_default_escaped subsection)
    (url_name_for_block subsection)
    (default EmptyString (sub_format subsection))
    (sub_due subsection)
    (default false (sub_graded subsection))
    (default EmptyString (sub_show_correctness subsection))
    (sub_course_version subsection)
    (subtree_edited_on subsection)
    None.

Definition set_override (override : option Override) (self : SubsectionGradeBase.t)
  : SubsectionGradeBase.t :=
  SubsectionGradeBase.mk
    (SubsectionGradeBase.location self)
    (SubsectionGradeBase.display_name self)
    (SubsectionGradeBase.url_name self)
    (SubsectionGradeBase.format self)
    (SubsectionGradeBase.due self)
    (SubsectionGradeBase.graded self)
    (SubsectionGradeBase.show_correctness self)
    (SubsectionGradeBase.course_version self)
    (SubsectionGradeBase.subtree_edited_timestamp self)
    override.

(** *** ZeroSubsectionGrade *)

Definition ZeroSubsectionGrade_init (subsection : Subsection) (course_data : CourseData)
  : ZeroSubsectionGrade.t :=
  ZeroSubsectionGrade.mk (SubsectionGradeBase_init subsection) course_data None None.

(** The loop of [ZeroSubsectionGrade.problem_scores] over the traversal. *)
Fixpoint zero_locations (structure : BlockStructure) (block_keys : list UsageKey)
    (locations : ProblemScores) : result ProblemScores :=
  match block_keys with
  | [] => Ok locations
  | block_key :: rest =>
      (block <-? getitem structure block_key ;;
       if getattr_has_score block then
         match get_score ∅ ∅ None block with
         | Some problem_score =>
             zero_locations structure rest (setitem block_key problem_score locations)
         | None => zero_locations structure rest locations
         end
       else zero_locations structure rest locations)%py
  end.

Definition ZeroSubsectionGrade_problem_scores : M ZeroSubsectionGrade.t ProblemScores :=
  lazy ZeroSubsectionGrade.problem_scores_cache ZeroSubsectionGrade.set_problem_scores
    (self <- get ;;
     lift (zero_locations
             (structure (ZeroSubsectionGrade.course_data self))
             (post_order_traversal
                (structure (ZeroSubsectionGrade.course_data self))
                possibly_scored
                (SubsectionGradeBase.location (ZeroSubsectionGrade.base self)))
             []))%py.

Definition ZeroSubsectionGrade__aggregate_scores
  : M ZeroSubsectionGrade.t (AggregatedScore.t * AggregatedScore.t) :=
  lazy ZeroSubsectionGrade._aggregate_scores_cache ZeroSubsectionGrade.set_aggregate_scores
    (problem_scores <- ZeroSubsectionGrade_problem_scores ;;
     ret (graders.aggregate_scores (values problem_scores)))%py.

Definition ZeroSubsectionGrade_all_total : M ZeroSubsectionGrade.t AggregatedScore.t :=
  (scores <- ZeroSubsectionGrade__aggregate_scores ;; ret (fst scores))%py.

Definition ZeroSubsectionGrade_graded_total : M ZeroSubsectionGrade.t AggregatedScore.t :=
  (scores <- ZeroSubsectionGrade__aggregate_scores ;; ret (snd scores))%py.

#[export] Instance ZeroSubsectionGrade_grade : SubsectionGrade ZeroSubsectionGrade.t := {
  all_total := (total <- ZeroSubsectionGrade_all_total ;; ret (Some total))%py;
  attempted_graded := ret false;
  percent_graded := ret fzero
}.

(** *** NonZeroSubsectionGrade *)

Definition NonZeroSubsectionGrade_init (subsection : Subsection)
    (all_total graded_total : AggregatedScore.t) (override : option Override)
  : NonZeroSubsectionGrade.t :=
  NonZeroSubsectionGrade.mk
    (set_override override (SubsectionGradeBase_init subsection))
    all_total graded_total.

#[export] Instance NonZeroSubsectionGrade_grade : SubsectionGrade NonZeroSubsectionGrade.t := {
  all_total := (self <- get ;; ret (Some (NonZeroSubsectionGrade.all_total self)))%py;
  attempted_graded := (self <- get ;; ret (NonZeroSubsectionGrade.attempted_graded self))%py;
  percent_graded := (self <- get ;; lift (NonZeroSubsectionGrade.percent_graded self))%py
}.

(** [NonZeroSubsectionGrade.__init__] on any Python values: the class
    sets [ABCMeta] as its metaclass and declares no abstract method, so it
    can be instantiated, and the two totals are stored as given. *)
Definition NonZeroObject_init (subsection : Subsection)
    (all_total graded_total : option AggregatedScore.t) (override : option Override)
  : NonZeroObject.t :=
  NonZeroObject.mk
    (set_override override (SubsectionGradeBase_init subsection))
    all_total graded_total.

#[export] Instance NonZeroObject_grade : SubsectionGrade NonZeroObject.t := {
  all_total := (self <- get ;; ret (NonZeroObject.all_total self))%py;
  attempted_graded := (self <- get ;; lift (NonZeroObject.attempted_graded self))%py;
  percent_graded := (self <- get ;; lift (NonZeroObject.percent_graded self))%py
}.

(** [NonZeroSubsectionGrade._compute_block_score]: the [KeyError] of the
    lookup is caught, and the function then falls off its end. *)
Definition _compute_block_score (block_key : UsageKey) (course_structure : BlockStructure)
    (submissions_scores : SubmissionsScores) (csm_scores : CsmScores)
    (persisted_block : option BlockRecord.t) : result (option ProblemScore.t) :=
  match getitem course_structure block_key with
  | Raise KeyError => Ok None
  | Raise e => Raise e
  | Ok block =>
      if getattr_has_score block
      then Ok (get_score submissions_scores csm_scores persisted_block block)
      else Ok None
  end.

(** *** ReadSubsectionGrade *)

Definition ReadSubsectionGrade_init (subsection : Subsection)
    (model : PersistentSubsectionGrade.t) (factory : SubsectionGradeFactory)
  : ReadSubsectionGrade.t :=
  let all_total :=
    AggregatedScore.mk
      (PersistentSubsectionGrade.earned_all model)
      (PersistentSubsectionGrade.possible_all model)
      false
      (PersistentSubsectionGrade.first_attempted model) in
  let graded_total :=
    AggregatedScore.mk
      (PersistentSubsectionGrade.earned_graded model)
      (PersistentSubsectionGrade.possible_graded model)
      true
      (PersistentSubsectionGrade.first_attempted model) in
  let override :=
    match PersistentSubsectionGrade.override model with
    | Some override => override
    | None => None
    end in
  ReadSubsectionGrade.mk
    (NonZeroSubsectionGrade_init subsection all_total graded_total override)
    model factory None.

(** The loop of [ReadSubsectionGrade.problem_scores] over the stored blocks. *)
Fixpoint read_problem_scores (factory : SubsectionGradeFactory) (blocks : list BlockRecord.t)
    (problem_scores : ProblemScores) : result ProblemScores :=
  match blocks with
  | [] => Ok problem_scores
  | block :: rest =>
      (problem_score <-? _compute_block_score
                           (BlockRecord.locator block)
                           (structure (course_data factory))
                           (_submissions_scores factory)
                           (_csm_scores factory)
                           (Some block) ;;
       read_problem_scores factory rest
         (setitem_if_truthy (BlockRecord.locator block) problem_score problem_scores))%py
  end.

Definition ReadSubsectionGrade_problem_scores : M ReadSubsectionGrade.t ProblemScores :=
  lazy ReadSubsectionGrade.problem_scores_cache ReadSubsectionGrade.set_problem_scores
    (self <- get ;;
     lift (read_problem_scores
             (ReadSubsectionGrade.factory self)
             (PersistentSubsectionGrade.visible_blocks (ReadSubsectionGrade.model self))
             []))%py.

(** *** CreateSubsectionGrade *)

(** The loop of [CreateSubsectionGrade.__init__] over the traversal. *)
Fixpoint create_problem_scores (course_structure : BlockStructure)
    (submissions_scores : SubmissionsScores) (csm_scores : CsmScores)
    (block_keys : list UsageKey) (problem_scores : ProblemScores) : result ProblemScores :=
  match block_keys with
  | [] => Ok problem_scores
  | block_key :: rest =>
      (problem_score <-? _compute_block_score
                           block_key course_structure submissions_scores csm_scores None ;;
       create_problem_scores course_structure submissions_scores csm_scores rest
         (setitem_if_truthy block_key problem_score problem_scores))%py
  end.

Definition CreateSubsectionGrade_init (subsection : Subsection)
    (course_structure : BlockStructure) (submissions_scores : SubmissionsScores)
    (csm_scores : CsmScores) : result CreateSubsectionGrade.t :=
  (problem_scores <-? create_problem_scores course_structure submissions_scores csm_scores
                        (post_order_traversal course_structure possibly_scored (location subsection))
                        [] ;;
   let '(all_total, graded_total) := graders.aggregate_scores (values problem_scores) in
   Ok (CreateSubsectionGrade.mk
         (NonZeroSubsectionGrade_init subsection all_total graded_total None)
         problem_scores))%py.

Definition _should_persist_per_attempted (self : CreateSubsectionGrade.t) (score_deleted : bool)
  : bool :=
  match AggregatedScore.first_attempted
          (NonZeroSubsectionGrade.all_total (CreateSubsectionGrade.super self)) with
  | Some _ => true
  | None => false
  end || score_deleted.

Definition _get_visible_blocks (self : CreateSubsectionGrade.t) : list BlockRecord.t :=
  map (fun item : UsageKey * ProblemScore.t =>
         BlockRecord.mk
           (fst item)
           (ProblemScore.weight (snd item))
           (ProblemScore.raw_possible (snd item))
           (ProblemScore.graded (snd item)))
      (iteritems (CreateSubsectionGrade.problem_scores self)).

Definition _persisted_model_params (self : CreateSubsectionGrade.t) (student : Student)
  : ModelParams :=
  let super := CreateSubsectionGrade.super self in
  {| user_id := id student;
     usage_key := SubsectionGradeBase.location (NonZeroSubsectionGrade.base super);
     p_course_version := SubsectionGradeBase.course_version (NonZeroSubsectionGrade.base super);
     p_subtree_edited_timestamp :=
       SubsectionGradeBase.subtree_edited_timestamp (NonZeroSubsectionGrade.base super);
     p_earned_all := AggregatedScore.earned (NonZeroSubsectionGrade.all_total super);
     p_possible_all := AggregatedScore.possible (NonZeroSubsectionGrade.all_total super);
     p_earned_graded := AggregatedScore.earned (NonZeroSubsectionGrade.graded_total super);
     p_possible_graded := AggregatedScore.possible (NonZeroSubsectionGrade.graded_total super);
     p_visible_blocks := _get_visible_blocks self;
     p_first_attempted :=
       AggregatedScore.first_attempted (NonZeroSubsectionGrade.all_total super) |}.

(** [CreateSubsectionGrade.update_or_create_model]: without the call the
    function falls off its end and returns [None]. *)
Definition update_or_create_model (self : CreateSubsectionGrade.t) (student : Student)
    (score_deleted : bool) : M Store (option PersistentSubsectionGrade.t) :=
  if _should_persist_per_attempted self score_deleted
  then (grade <- update_or_create_grade (_persisted_model_params self student) ;;
        ret (Some grade))%py
  else ret None.

(** [CreateSubsectionGrade.bulk_create_models]: the grades that are not
    [None] and that should be persisted, with [score_deleted] at its
    default. *)
Definition bulk_create_models (student : Student)
    (subsection_grades : list (option CreateSubsectionGrade.t)) (course_key : CourseKey)
  : M Store (list PersistentSubsectionGrade.t) :=
  let params :=
    omap (fun subsection_grade : option CreateSubsectionGrade.t =>
            match subsection_grade with
            | Some grade =>
                if _should_persist_per_attempted grade false
                then Some (_persisted_model_params grade student)
                else None
            | None => None
            end)
         subsection_grades in
  bulk_create_grades params (id student) course_key.

End Classes.

End subsection_grade.

(** ** [openedx/core/djangoapps/content/course_overviews/signals.py] *)

Module course_overviews.

Definition CourseKey : Type := string.

Module CourseOverview.

(** A row of the course-overview table: the course id (the primary key)
    and the two fields that the handlers compare. *)
Record t := mk {
  id : CourseKey;
  start : option datetime;
  self_paced : bool
}.

End CourseOverview.

(** A signal sent on one of the two narrower channels, with the keyword
    arguments of the [send] call. *)
Inductive Signal :=
| COURSE_START_DATE_CHANGED
    (updated_course_overview : CourseOverview.t) (previous_start_date : option datetime)
| COURSE_PACING_CHANGED
    (updated_course_overview : CourseOverview.t) (previous_self_paced : bool).

Definition is_start_date_changed (s : Signal) : bool :=
  match s with COURSE_START_DATE_CHANGED _ _ => true | _ => false end.

Definition is_pacing_changed (s : Signal) : bool :=
  match s with COURSE_PACING_CHANGED _ _ => true | _ => false end.

(** What the handlers read and write: the rows of the overview table,
    the ids that have an entry in the Course About search index, and the
    signals sent so far, oldest first. *)
Record World := {
  overviews : list CourseOverview.t;
  about_index : gset CourseKey;
  sent : list Signal
}.

Definition set_overviews (rows : list CourseOverview.t) (w : World) : World :=
  {| overviews := rows; about_index := about_index w; sent := sent w |}.

Definition set_about_index (index : gset CourseKey) (w : World) : World :=
  {| overviews := overviews w; about_index := index; sent := sent w |}.

(** [SIGNAL.send(sender=None, ...)]; what the receivers do is outside
    this module, and they are taken not to raise. *)
Definition send (s : Signal) : M World unit :=
  modify (fun w => {| overviews := overviews w; about_index := about_index w;
                      sent := sent w ++ [s] |}).

(** [CourseOverview.objects.filter(id=course_key).delete()] *)
Definition objects_filter_id_delete (course_key : CourseKey) : M World unit :=
  modify (fun w =>
    set_overviews
      (List.filter (fun row => negb (bool_decide (CourseOverview.id row = course_key)))
                   (overviews w))
      w).

(** Modelled from the spec: [CourseOverview.get_from_ids_if_exists] of
    the overview model, which is not among the sources; it returns the
    cached overviews ("a cached denormalized summary of a course's
    metadata") of the given ids that exist, as a dict keyed by id. *)
Definition get_from_ids_if_exists (course_ids : list CourseKey)
  : M World (gmap CourseKey CourseOverview.t) :=
  (w <- get ;;
   ret (foldl (fun d row => <[CourseOverview.id row := row]> d) ∅
          (List.filter (fun row => bool_decide (CourseOverview.id row ∈ course_ids))
                       (overviews w))))%py.

(** Modelled from the spec: [CourseAboutSearchIndexer.remove_deleted_items]
    of the contentstore's courseware index, which is not among the
    sources; at its call the handler says "Delete course entry from
    Course About Search_index". *)
Definition remove_deleted_items (course_key : CourseKey) : M World unit :=
  modify (fun w => set_about_index (about_index w ∖ {[course_key]}) w).

Section Handlers.

(** [CourseOverview.load_from_module_store], which rebuilds and stores
    the overview of a course, or raises. *)
Variable load_from_module_store : CourseKey -> M World CourseOverview.t.

Definition _check_for_course_date_changes
    (previous_course_overview updated_course_overview : CourseOverview.t) : M World unit :=
  if decide (CourseOverview.start previous_course_overview
             ≠ CourseOverview.start updated_course_overview)
  then send (COURSE_START_DATE_CHANGED
               updated_course_overview
               (CourseOverview.start previous_course_overview))
  else ret tt.

Definition _check_for_pacing_changes
    (previous_course_overview updated_course_overview : CourseOverview.t) : M World unit :=
  if decide (CourseOverview.self_paced previous_course_overview
             ≠ CourseOverview.self_paced updated_course_overview)
  then send (COURSE_PACING_CHANGED
               updated_course_overview
               (CourseOverview.self_paced previous_course_overview))
  else ret tt.

(** [if previous_course_overview:]: a model instance is true, only the
    [None] of a missing overview is false. *)
Definition _check_for_course_changes
    (previous_course_overview : option CourseOverview.t)
    (updated_course_overview : CourseOverview.t) : M World unit :=
  match previous_course_overview with
  | Some previous =>
      (_check_for_course_date_changes previous updated_course_overview ;;;
       _check_for_pacing_changes previous updated_course_overview)%py
  | None => ret tt
  end.

Definition _listen_for_course_publish (course_key : CourseKey) : M World unit :=
  (found <- get_from_ids_if_exists [course_key] ;;
   let previous_course_overview := found !! course_key in
   updated_course_overview <- load_from_module_store course_key ;;
   _check_for_course_changes previous_course_overview updated_course_overview)%py.

Definition _listen_for_course_delete (course_key : CourseKey) : M World unit :=
  (objects_filter_id_delete course_key ;;;
   remove_deleted_items course_key)%py.

End Handlers.

End course_overviews.

(** ** A small course used in the worked examples *)

Module Examples.

Import subsection_grade.

(** [1.0] and [2.0] *)
Definition one : float := S754_finite false 4503599627370496 (-52).
Definition two : float := S754_finite false 4503599627370496 (-51).

(** Modelled from the spec: [get_score] of [grades/scores.py], which is
    not among the sources.  "Each child's raw score is fetched from one of
    several score sources (submission store, legacy score table, or a
    persisted snapshot) with a defined precedence"; with no row in either
    live source the score has nothing earned out of the possible points
    of the persisted snapshot, or of the latest block content when there
    is no snapshot, and there is no score for a block without possible
    points.  Weights are recorded and not applied. *)
Definition get_score (submissions_scores : SubmissionsScores) (csm_scores : CsmScores)
    (persisted_block : option BlockRecord.t) (block : Block) : option ProblemScore.t :=
  let weight :=
    match persisted_block with
    | Some persisted => BlockRecord.weight persisted
    | None => block_weight block
    end in
  let graded :=
    match persisted_block with
    | Some persisted => BlockRecord.graded persisted
    | None => block_graded block
    end in
  match submissions_scores !! block_location block with
  | Some row =>
      Some (ProblemScore.mk (points_earned row) (points_possible row)
              (points_earned row) (points_possible row)
              weight graded (Some (created_at row)))
  | None =>
      match csm_scores !! block_location block with
      | Some row =>
          Some (ProblemScore.mk (csm_raw_earned row) (csm_raw_possible row)
                  (csm_raw_earned row) (csm_raw_possible row)
                  weight graded (Some (csm_created row)))
      | None =>
          match persisted_block with
          | Some persisted =>
              Some (ProblemScore.mk fzero (BlockRecord.raw_possible persisted)
                      fzero (BlockRecord.raw_possible persisted) weight graded None)
          | None =>
              match block_raw_possible block with
              | Some raw_possible =>
                  Some (ProblemScore.mk fzero raw_possible fzero raw_possible
                          weight graded None)
              | None => None
              end
          end
      end
  end.

Definition display_name_with_default_escaped (subsection : Subsection) : string :=
  "Homework 1".

Definition url_name_for_block (subsection : Subsection) : string := "homework1".

Definition possibly_scored (block_key : UsageKey) : bool := true.

(** A graded problem worth one point, and the subsection that holds it. *)
Definition problem1 : Block :=
  {| block_location := "problem1";
     has_score := Some true;
     block_weight := None;
     block_graded := true;
     block_raw_possible := Some one |}.

Definition homework1 : Subsection :=
  {| location := "homework1";
     sub_format := Some "Homework";
     sub_due := None;
     sub_graded := Some true;
     sub_show_correctness := None;
     sub_course_version := None;
     subtree_edited_on := None |}.

Definition course : BlockStructure := {[ "problem1" := problem1 ]}.

(** The same course after the problem was removed from it. *)
Definition course_without_problem : BlockStructure := ∅.

(** The scorable blocks below a start node, children first: the blocks
    of the structure when the start node is the subsection. *)
Definition post_order_traversal (structure : BlockStructure)
    (filter_func : UsageKey -> bool) (start_node : UsageKey) : list UsageKey :=
  if decide (start_node = "homework1")
  then List.filter filter_func (List.filter (fun key => bool_decide (is_Some (structure !! key)))
                                            ["problem1"])
  else [].

(** The zero-value grade of the subsection. *)
Definition zero_grade : ZeroSubsectionGrade.t :=
  ZeroSubsectionGrade_init display_name_with_default_escaped url_name_for_block
    homework1 {| structure := course |}.

(** The score of [problem1] when nothing was ever submitted. *)
Definition problem1_unattempted : ProblemScore.t :=
  ProblemScore.mk fzero one fzero one None true None.

(** A record persisted when the learner had earned the point of
    [problem1], read back after the problem left the course. *)
Definition stored_grade : PersistentSubsectionGrade.t :=
  PersistentSubsectionGrade.mk one one one one (Some 1500000000%Z)
    [BlockRecord.mk "problem1" None one true] None.

Definition read_grade : ReadSubsectionGrade.t :=
  ReadSubsectionGrade_init display_name_with_default_escaped url_name_for_block
    homework1 stored_grade
    {| course_data := {| structure := course_without_problem |};
       _submissions_scores := ∅;
       _csm_scores := ∅ |}.

(** A store that keeps the parameters of every persistence call, and
    answers with the record made from them. *)
Definition update_or_create_grade (params : ModelParams)
  : M (list ModelParams) PersistentSubsectionGrade.t :=
  fun store =>
    (Ok (PersistentSubsectionGrade.mk
           (p_earned_all params) (p_possible_all params)
           (p_earned_graded params) (p_possible_graded params)
           (p_first_attempted params) (p_visible_blocks params) (Some None)),
     store ++ [params]).

(** A grade with one of two graded points earned, and one whose graded
    part has no possible points. *)
Definition half_earned : NonZeroSubsectionGrade.t :=
  NonZeroSubsectionGrade_init display_name_with_default_escaped url_name_for_block homework1
    (AggregatedScore.mk one two false (Some 1500000000%Z))
    (AggregatedScore.mk one two true (Some 1500000000%Z))
    None.

Definition nothing_graded : NonZeroSubsectionGrade.t :=
  NonZeroSubsectionGrade_init display_name_with_default_escaped url_name_for_block homework1
    (AggregatedScore.mk one two false (Some 1500000000%Z))
    (AggregatedScore.mk fzero (S754_zero true) true None)
    None.

(** [0.5] *)
Definition half : float := S754_finite false 4503599627370496 (-53).

(** A course whose cached overview says it starts at time 100 and is
    instructor-paced, republished with a start at time 200. *)
Definition cached_overview : course_overviews.CourseOverview.t :=
  course_overviews.CourseOverview.mk "course-v1:edX+Demo+2017" (Some 100%Z) false.

Definition republished_overview : course_overviews.CourseOverview.t :=
  course_overviews.CourseOverview.mk "course-v1:edX+Demo+2017" (Some 200%Z) false.

Definition other_overview : course_overviews.CourseOverview.t :=
  course_overviews.CourseOverview.mk "course-v1:edX+Other+2017" (Some 100%Z) true.

Definition world : course_overviews.World :=
  {| course_overviews.overviews := [other_overview; cached_overview];
     course_overviews.about_index :=
       {[ "course-v1:edX+Demo+2017"; "course-v1:edX+Other+2017" ]};
     course_overviews.sent := [] |}.

(** A reload that finds the republished course and raises for any other. *)
Definition load_from_module_store (course_key : course_overviews.CourseKey)
  : M course_overviews.World course_overviews.CourseOverview.t :=
  if decide (course_key = "course-v1:edX+Demo+2017")
  then (modify (fun w =>
          course_overviews.set_overviews
            (List.filter
               (fun row => negb (bool_decide (course_overviews.CourseOverview.id row
                                               = course_key)))
               (course_overviews.overviews w)
             ++ [republished_overview])
            w) ;;;
        ret republished_overview)%py
  else raise DoesNotExist.

End Examples.

(** ** The loops that fill a problem-score mapping, as one fold *)

Section Fill.
Context {A K V : Type} `{EqDecision K}.

(** Each item of a list yields at most one assignment [d[k] = v]; the
    three loops of the grade classes are instances of this fold. *)
Definition fill (f : A -> option (K * V)) (l : list A) (d : OrderedDict K V)
  : OrderedDict K V :=
  foldl (fun d a => match f a with Some (k, v) => setitem k v d | None => d end) d l.

End Fill.

(** "Both aggregates are computed from the same problem-score mapping,
    with the graded-total restricted to the graded entries". *)
Definition aggregates_of_mapping (all_total graded_total : AggregatedScore.t)
    (problem_scores : OrderedDict string ProblemScore.t) : Prop :=
  all_total = graders.total false (values problem_scores) /\
  graded_total = graders.total true (List.filter ProblemScore.graded (values problem_scores)).

Section ScoredBlock.
Import subsection_grade.
Variable get_score :
  SubmissionsScores -> CsmScores -> option BlockRecord.t -> Block -> option ProblemScore.t.

(** The assignment that a loop makes for one block key: the key must be
    in the course structure, its block must have [has_score] set, and the
    score lookup must give a score. *)
Definition scored_block (structure : BlockStructure) (submissions_scores : SubmissionsScores)
    (csm_scores : CsmScores) (persisted_block : option BlockRecord.t) (block_key : UsageKey)
  : option (UsageKey * ProblemScore.t) :=
  match structure !! block_key with
  | Some block =>
      if getattr_has_score block
      then match get_score submissions_scores csm_scores persisted_block block with
           | Some problem_score => Some (block_key, problem_score)
           | None => None
           end
      else None
  | None => None
  end.

(** The assignment made for a stored block of a persisted grade. *)
Definition stored_block (factory : SubsectionGradeFactory) (block : BlockRecord.t)
  : option (UsageKey * ProblemScore.t) :=
  scored_block (structure (course_data factory)) (_submissions_scores factory)
    (_csm_scores factory) (Some block) (BlockRecord.locator block).

(** Whether every key of a traversal is in the course structure. *)
Definition all_present (structure : BlockStructure) (block_keys : list UsageKey) : bool :=
  forallb (fun block_key => bool_decide (is_Some (structure !! block_key))) block_keys.

End ScoredBlock.

(** ** [cms/conftest.py] *)

Module conftest.

(** The pytest configuration object: [config.getoption('help')], as a
    condition. *)
Record Config := { getoption_help : bool }.

(** What [pytest_configure] does to its surroundings, in order. *)
Inductive Call :=
| contracts_disable_all
| import_module (name : string)
| startup_run (name : string).

Inductive Outcome :=
| Returned
| RaisedAttributeError.

(** [os.environ.get('ENABLE_CONTRACTS', False)], as a condition: the
    default [False] and the empty string are false, every other string is
    true. *)
Definition enable_contracts (environ : gmap string string) : bool :=
  match environ !! "ENABLE_CONTRACTS" with
  | Some EmptyString => false
  | Some _ => true
  | None => false
  end.

(** [pytest_configure]: [os.environ.get('DJANGO_SETTINGS_MODULE')] is
    [None] for an unset variable, and [None.startswith] raises
    [AttributeError]. *)
Definition pytest_configure (config : Config) (environ : gmap string string)
  : list Call * Outcome :=
  if getoption_help config then ([], Returned)
  else
    let disabled := if enable_contracts environ then [] else [contracts_disable_all] in
    match environ !! "DJANGO_SETTINGS_MODULE" with
    | None => (disabled, RaisedAttributeError)
    | Some settings_module =>
        let startup_module :=
          if String.prefix "cms" settings_module then "cms.startup" else "lms.startup" in
        (disabled ++ [import_module startup_module; startup_run startup_module], Returned)
    end.

End conftest.

(** ** Persisted parameters and the records made from them *)

Section Persisted.
Import subsection_grade.

(** A persisted record that holds the parameters of a persistence call:
    the keyword arguments built by [_persisted_model_params] are the
    fields that [ReadSubsectionGrade.__init__] and its [problem_scores]
    read back. *)
Definition persisted_as (params : ModelParams) (model : PersistentSubsectionGrade.t) : Prop :=
  PersistentSubsectionGrade.earned_all model = p_earned_all params
  /\ PersistentSubsectionGrade.possible_all model = p_possible_all params
  /\ PersistentSubsectionGrade.earned_graded model = p_earned_graded params
  /\ PersistentSubsectionGrade.possible_graded model = p_possible_graded params
  /\ PersistentSubsectionGrade.first_attempted model = p_first_attempted params
  /\ PersistentSubsectionGrade.visible_blocks model = p_visible_blocks params.

(** The grades of a list that [bulk_create_models] keeps: those that are
    not [None] and have a first attempt. *)
Definition bulk_persisted (subsection_grades : list (option CreateSubsectionGrade.t))
  : list CreateSubsectionGrade.t :=
  List.filter (fun grade => _should_persist_per_attempted grade false)
              (omap (fun grade => grade) subsection_grades).

End Persisted.

Module MoreExamples.

Import subsection_grade.

(** An ungraded practice problem, attempted once through the legacy
    score table, beside the graded problem of the example course. *)
Definition practice1 : Block :=
  {| block_location := "practice1";
     has_score := Some true;
     block_weight := None;
     block_graded := false;
     block_raw_possible := Some Examples.one |}.

Definition practice_attempt : ProblemScore.t :=
  ProblemScore.mk Examples.one Examples.one Examples.one Examples.one None false
    (Some 1500000000%Z).

(** The freshly computed grade of a learner who attempted only the
    practice problem: the all-total has a first attempt, the graded-total
    has none. *)
Definition practice_grade : CreateSubsectionGrade.t :=
  CreateSubsectionGrade.mk
    (NonZeroSubsectionGrade_init Examples.display_name_with_default_escaped
       Examples.url_name_for_block Examples.homework1
       (AggregatedScore.mk Examples.one Examples.two false (Some 1500000000%Z))
       (AggregatedScore.mk fzero Examples.one true None)
       None)
    [("practice1", practice_attempt); ("problem1", Examples.problem1_unattempted)].

(** A grade with no attempt at all. *)
Definition unattempted_grade : CreateSubsectionGrade.t :=
  CreateSubsectionGrade.mk
    (NonZeroSubsectionGrade_init Examples.display_name_with_default_escaped
       Examples.url_name_for_block Examples.homework1
       (AggregatedScore.mk fzero Examples.one false None)
       (AggregatedScore.mk fzero Examples.one true None)
       None)
    [("problem1", Examples.problem1_unattempted)].

Definition learner : Student := {| id := 7%Z |}.

(** The record that holds the parameters of a persistence call. *)
Definition record_of (params : ModelParams) : PersistentSubsectionGrade.t :=
  PersistentSubsectionGrade.mk
    (p_earned_all params) (p_possible_all params)
    (p_earned_graded params) (p_possible_graded params)
    (p_first_attempted params) (p_visible_blocks params) (Some None).

Definition factory : SubsectionGradeFactory :=
  {| course_data := {| structure := Examples.course |};
     _submissions_scores := ∅;
     _csm_scores := ∅ |}.

(** A bulk store that logs the parameter lists it is given. *)
Definition bulk_create_grades (params : list ModelParams) (user_id : UserId)
    (course_key : CourseKey)
  : M (list (list ModelParams)) (list PersistentSubsectionGrade.t) :=
  fun store => (Ok (map record_of params), store ++ [params]).

(** The environment of a Studio test run, and one without settings. *)
Definition studio_environ : gmap string string :=
  {[ "DJANGO_SETTINGS_MODULE" := "cms.envs.test"; "ENABLE_CONTRACTS" := "0" ]}.

End MoreExamples.

(** * Properties *)

(** ** Floats *)

Lemma gt0_not_zero (x : float) : gt0 x = true -> is_zero x = false.
Proof. by destruct x. Qed.

Lemma truediv_positive (x y : float) :
  gt0 y = true -> truediv x y = Ok (SFdiv prec emax x y).
Proof. intros Hy. unfold truediv. by rewrite (gt0_not_zero y Hy). Qed.

(** ** Ordered dictionaries *)

Section OrderedDictFacts.
Context {K V : Type} `{EqDecision K}.
Implicit Types (d : OrderedDict K V) (k : K) (v : V).

Lemma keys_setitem k v d :
  keys (setitem k v d) = if decide (k ∈ keys d) then keys d else keys d ++ [k].
Proof.
  unfold keys. induction d as [|[k' v'] d IH]; csimpl.
  - destruct (decide (k ∈ [])) as [Hin|Hin]; [by apply elem_of_nil in Hin | done].
  - destruct (decide (k = k')) as [->|Hne]; csimpl.
    + rewrite decide_True; [done | by left].
    + rewrite IH. destruct (decide (k ∈ d.*1)) as [Hin|Hin].
      * rewrite decide_True; [done | by right].
      * rewrite decide_False; [done |]. rewrite elem_of_cons. tauto.
Qed.

Lemma elem_of_keys_setitem k k' v d :
  k' ∈ keys (setitem k v d) <-> k' = k \/ k' ∈ keys d.
Proof.
  rewrite keys_setitem. case_decide as Hin.
  - split; [tauto | by intros [->|?]].
  - rewrite elem_of_app, list_elem_of_singleton. tauto.
Qed.

Lemma NoDup_keys_setitem k v d : NoDup (keys d) -> NoDup (keys (setitem k v d)).
Proof.
  intros Hd. rewrite keys_setitem. case_decide as Hin; [done |].
  apply NoDup_app. split_and!; [done | | apply NoDup_singleton].
  intros x Hx Hx'. apply list_elem_of_singleton in Hx'. by subst.
Qed.

Lemma elem_of_setitem k v d (item : K * V) :
  item ∈ setitem k v d -> item = (k, v) \/ item ∈ d.
Proof.
  induction d as [|[k' v'] d IH]; simpl.
  - rewrite list_elem_of_singleton. tauto.
  - case_decide; rewrite !elem_of_cons; [tauto |].
    intros [?|?]; [tauto |]. destruct IH; tauto.
Qed.

End OrderedDictFacts.

Section FillFacts.
Context {A K V : Type} `{EqDecision K}.
Implicit Types (f : A -> option (K * V)) (l : list A) (d : OrderedDict K V).

Lemma fill_cons f a l d :
  fill f (a :: l) d = fill f l (match f a with Some (k, v) => setitem k v d | None => d end).
Proof. done. Qed.

(** The keys of the filled mapping: those it had, then new ones in the
    order of the items that brought them. *)
Lemma keys_fill (key : A -> K) f l d :
  (forall a k v, f a = Some (k, v) -> k = key a) ->
  exists news, keys (fill f l d) = keys d ++ news /\ news `sublist_of` (key <$> l).
Proof.
  intros Hkey. revert d. induction l as [|a l IH]; intros d.
  - exists []. by rewrite app_nil_r.
  - rewrite fill_cons, fmap_cons. destruct (f a) as [[k v]|] eqn:Hfa.
    + destruct (IH (setitem k v d)) as (news & -> & Hsub).
      rewrite keys_setitem. rewrite <- (Hkey a k v Hfa). case_decide.
      * exists news. split; [done |]. by apply sublist_cons.
      * exists (k :: news). rewrite <- app_assoc. split; [done |]. by apply sublist_skip.
    + destruct (IH d) as (news & -> & Hsub).
      exists news. split; [done |]. by apply sublist_cons.
Qed.

Lemma NoDup_keys_fill f l d : NoDup (keys d) -> NoDup (keys (fill f l d)).
Proof.
  revert d. induction l as [|a l IH]; intros d Hd; [done |].
  rewrite fill_cons. apply IH. destruct (f a) as [[k v]|]; [|done].
  by apply NoDup_keys_setitem.
Qed.

Lemma elem_of_keys_fill f l d k :
  k ∈ keys (fill f l d) <-> k ∈ keys d \/ exists a v, a ∈ l /\ f a = Some (k, v).
Proof.
  revert d. induction l as [|a l IH]; intros d.
  - split; [by left |]. intros [?|(a & v & Ha & _)]; [done |]. by apply elem_of_nil in Ha.
  - rewrite fill_cons, IH. split.
    + intros [Hk|(a' & v & Ha' & Hf)].
      * destruct (f a) as [[k0 v0]|] eqn:Hfa; [|by left].
        apply elem_of_keys_setitem in Hk as [->|Hk]; [|by left].
        right. exists a, v0. split; [by left | done].
      * right. exists a', v. split; [by right | done].
    + intros [Hk|(a' & v & Ha' & Hf)].
      * left. destruct (f a) as [[k0 v0]|]; [|done].
        apply elem_of_keys_setitem. by right.
      * apply elem_of_cons in Ha' as [->|Ha'].
        -- left. rewrite Hf. apply elem_of_keys_setitem. by left.
        -- right. by exists a', v.
Qed.

Lemma elem_of_fill f l d (item : K * V) :
  item ∈ fill f l d -> item ∈ d \/ exists a, a ∈ l /\ f a = Some item.
Proof.
  revert d. induction l as [|a l IH]; intros d; [by left |].
  rewrite fill_cons. intros Hin. apply IH in Hin as [Hin|(a' & Ha' & Hf)].
  - destruct (f a) as [[k v]|] eqn:Hfa; [|by left].
    apply elem_of_setitem in Hin as [->|Hin]; [|by left].
    right. exists a. split; [by left | done].
  - right. exists a'. split; [by right | done].
Qed.

Lemma fill_nil_iff f l : fill f l [] = [] <-> forall a, a ∈ l -> f a = None.
Proof.
  split.
  - intros Hnil a Ha. destruct (f a) as [[k v]|] eqn:Hfa; [|done].
    assert (k ∈ keys (fill f l [])) as Hk.
    { apply elem_of_keys_fill. right. by exists a, v. }
    rewrite Hnil in Hk. by apply elem_of_nil in Hk.
  - intros Hnone. induction l as [|a l IH]; [done |].
    rewrite fill_cons, (Hnone a) by (by left). apply IH.
    intros a' Ha'. apply Hnone. by right.
Qed.

End FillFacts.

(** ** The loops of the grade classes *)

Section Loops.
Import subsection_grade.
Variable get_score :
  SubmissionsScores -> CsmScores -> option BlockRecord.t -> Block -> option ProblemScore.t.

Lemma scored_block_key structure submissions_scores csm_scores persisted_block
    block_key k (v : ProblemScore.t) :
  scored_block get_score structure submissions_scores csm_scores persisted_block block_key
    = Some (k, v) ->
  k = block_key.
Proof.
  unfold scored_block. intros Hsome.
  destruct (structure !! block_key) as [block|]; [|done].
  destruct (getattr_has_score block); [|done].
  destruct (get_score _ _ _ block); congruence.
Qed.

Lemma scored_block_Some structure submissions_scores csm_scores persisted_block
    block_key (v : ProblemScore.t) :
  scored_block get_score structure submissions_scores csm_scores persisted_block block_key
    = Some (block_key, v) <->
  exists block, structure !! block_key = Some block /\
                getattr_has_score block = true /\
                get_score submissions_scores csm_scores persisted_block block = Some v.
Proof.
  unfold scored_block. split.
  - destruct (structure !! block_key) as [block|]; [|done].
    destruct (getattr_has_score block) eqn:Hscore; [|done].
    destruct (get_score _ _ _ block) eqn:Hget; [|done].
    intros [= <-]. by exists block.
  - intros (block & -> & -> & ->). done.
Qed.

(** The lookup of a block never lets an exception out: a missing key
    gives no score. *)
Lemma _compute_block_score_eq block_key structure submissions_scores csm_scores persisted_block :
  _compute_block_score get_score block_key structure submissions_scores csm_scores
    persisted_block
  = Ok (snd <$> scored_block get_score structure submissions_scores csm_scores
                  persisted_block block_key).
Proof.
  unfold _compute_block_score, scored_block, getitem.
  destruct (structure !! block_key) as [block|]; [|done].
  destruct (getattr_has_score block); [|done].
  by destruct (get_score _ _ _ block).
Qed.

Lemma setitem_if_truthy_eq block_key (item : option (UsageKey * ProblemScore.t)) d :
  (forall k v, item = Some (k, v) -> k = block_key) ->
  setitem_if_truthy block_key (snd <$> item) d
  = match item with Some (k, v) => setitem k v d | None => d end.
Proof.
  intros Hkey. destruct item as [[k v]|]; [|done]. simpl.
  by rewrite (Hkey k v eq_refl).
Qed.

Lemma create_problem_scores_fill structure submissions_scores csm_scores block_keys d :
  create_problem_scores get_score structure submissions_scores csm_scores block_keys d
  = Ok (fill (scored_block get_score structure submissions_scores csm_scores None)
          block_keys d).
Proof.
  revert d. induction block_keys as [|block_key rest IH]; intros d; [done |].
  simpl. rewrite _compute_block_score_eq. simpl. rewrite IH.
  rewrite setitem_if_truthy_eq; [done |].
  intros k v. apply scored_block_key.
Qed.

Lemma read_problem_scores_fill factory blocks d :
  read_problem_scores get_score factory blocks d
  = Ok (fill (stored_block get_score factory) blocks d).
Proof.
  revert d. induction blocks as [|block rest IH]; intros d; [done |].
  simpl. rewrite _compute_block_score_eq. simpl. rewrite IH.
  rewrite setitem_if_truthy_eq; [done |].
  intros k v. apply scored_block_key.
Qed.

(** The loop of the zero-value grade has no handler for the lookup: it
    raises as soon as a key of the traversal is not in the structure. *)
Lemma zero_locations_fill structure block_keys d :
  zero_locations get_score structure block_keys d
  = if all_present structure block_keys
    then Ok (fill (scored_block get_score structure ∅ ∅ None) block_keys d)
    else Raise KeyError.
Proof.
  revert d. induction block_keys as [|block_key rest IH]; intros d; [done |].
  simpl. unfold getitem, scored_block.
  destruct (structure !! block_key) as [block|] eqn:Hblock; simpl; [|done].
  destruct (getattr_has_score block); [|apply IH].
  destruct (get_score ∅ ∅ None block); apply IH.
Qed.

Lemma all_present_false structure block_keys :
  all_present structure block_keys = false <->
  exists block_key, block_key ∈ block_keys /\ structure !! block_key = None.
Proof.
  unfold all_present. induction block_keys as [|k rest IH]; simpl.
  - split; [done |]. intros (k & Hk & _). by apply elem_of_nil in Hk.
  - rewrite andb_false_iff, IH. split.
    + intros [Hk|(k' & Hk' & Hnone)].
      * exists k. split; [by left |]. apply bool_decide_eq_false in Hk.
        by apply eq_None_not_Some.
      * exists k'. split; [by right | done].
    + intros (k' & Hk' & Hnone). apply elem_of_cons in Hk' as [->|Hk'].
      * left. apply bool_decide_eq_false. by rewrite Hnone; intros [? ?].
      * right. by exists k'.
Qed.

End Loops.

(** ** Lazily computed properties *)

Section Lazy.
Import subsection_grade.
Context {S A : Type} (cache : S -> option A) (store : A -> S -> S) (compute : M S A).

Lemma lazy_cached self v : cache self = Some v -> lazy cache store compute self = (Ok v, self).
Proof. intros Hc. unfold lazy. by rewrite Hc. Qed.

Lemma lazy_fresh self self' v :
  cache self = None -> compute self = (Ok v, self') ->
  lazy cache store compute self = (Ok v, store v self').
Proof. intros Hc Hv. unfold lazy. by rewrite Hc, Hv. Qed.

Lemma lazy_raise self self' e :
  cache self = None -> compute self = (Raise e, self') ->
  lazy cache store compute self = (Raise e, self').
Proof. intros Hc Hv. unfold lazy. by rewrite Hc, Hv. Qed.

End Lazy.

(** ** Subsection grades *)

Section Grades.
Import subsection_grade.
Variable display_name_with_default_escaped : Subsection -> string.
Variable url_name_for_block : Subsection -> string.
Variable possibly_scored : UsageKey -> bool.
Variable post_order_traversal : BlockStructure -> (UsageKey -> bool) -> UsageKey -> list UsageKey.
Variable get_score :
  SubmissionsScores -> CsmScores -> option BlockRecord.t -> Block -> option ProblemScore.t.
Variable Store : Type.
Variable update_or_create_grade : ModelParams -> M Store PersistentSubsectionGrade.t.

Local Abbreviation zero_init :=
  (ZeroSubsectionGrade_init display_name_with_default_escaped url_name_for_block).
Local Abbreviation read_init :=
  (ReadSubsectionGrade_init display_name_with_default_escaped url_name_for_block).
Local Abbreviation create_init :=
  (CreateSubsectionGrade_init display_name_with_default_escaped url_name_for_block
     possibly_scored post_order_traversal get_score).
Local Abbreviation zero_problem_scores :=
  (ZeroSubsectionGrade_problem_scores possibly_scored post_order_traversal get_score).
Local Abbreviation zero_aggregate_scores :=
  (ZeroSubsectionGrade__aggregate_scores possibly_scored post_order_traversal get_score).
Local Abbreviation zero_ops :=
  (ZeroSubsectionGrade_grade possibly_scored post_order_traversal get_score).
Local Abbreviation read_problem_scores := (ReadSubsectionGrade_problem_scores get_score).
Local Abbreviation traversal_of structure start :=
  (post_order_traversal structure possibly_scored start).

(** C1: for a grade with possibly non-zero values, [percent_graded] is
    the graded earned points divided by the graded possible points when
    the possible points are greater than zero, and [0.0] otherwise; the
    division is never reached with a zero divisor, so no
    [ZeroDivisionError] is raised.  For a zero-value grade it is [0.0]. *)
Theorem percent_graded_never_divides_by_zero
    (self : NonZeroSubsectionGrade.t) (zero : ZeroSubsectionGrade.t) :
  let earned := AggregatedScore.earned (NonZeroSubsectionGrade.graded_total self) in
  let possible := AggregatedScore.possible (NonZeroSubsectionGrade.graded_total self) in
  NonZeroSubsectionGrade.percent_graded self
    = Ok (if gt0 possible then SFdiv prec emax earned possible else fzero)
  /\ NonZeroSubsectionGrade.percent_graded self <> Raise ZeroDivisionError
  /\ @percent_graded _ NonZeroSubsectionGrade_grade self
     = (Ok (if gt0 possible then SFdiv prec emax earned possible else fzero), self)
  /\ @percent_graded _ zero_ops zero = (Ok fzero, zero).
Proof.
  intros earned possible.
  assert (NonZeroSubsectionGrade.percent_graded self
          = Ok (if gt0 possible then SFdiv prec emax earned possible else fzero)) as Heq.
  { unfold NonZeroSubsectionGrade.percent_graded. fold earned possible.
    destruct (gt0 possible) eqn:Hpos; [|done]. by apply truediv_positive. }
  split_and!; [done | by rewrite Heq | | done].
  cbn. unfold bind, get, lift. by rewrite Heq.
Qed.

(** C9: in a grade read from a persisted record both aggregates carry
    the record's [first_attempted]; the all-total is marked not graded
    and the graded-total is marked graded. *)
Theorem read_totals_share_first_attempted
    (subsection : Subsection) (model : PersistentSubsectionGrade.t)
    (factory : SubsectionGradeFactory) :
  let self := ReadSubsectionGrade.super (read_init subsection model factory) in
  AggregatedScore.first_attempted (NonZeroSubsectionGrade.all_total self)
    = PersistentSubsectionGrade.first_attempted model
  /\ AggregatedScore.first_attempted (NonZeroSubsectionGrade.graded_total self)
     = PersistentSubsectionGrade.first_attempted model
  /\ AggregatedScore.graded (NonZeroSubsectionGrade.all_total self) = false
  /\ AggregatedScore.graded (NonZeroSubsectionGrade.graded_total self) = true.
Proof. by split_and!. Qed.

(** C2: [update_or_create_model] of a freshly computed grade calls the
    persistence layer, with the grade's aggregates among the parameters,
    exactly when the all-total's [first_attempted] is set or
    [score_deleted] is true, and returns what the call returns; otherwise
    it leaves the store as it is and returns [None]. *)
Theorem update_or_create_model_persists_iff_attempted
    (self : CreateSubsectionGrade.t) (student : Student) (score_deleted : bool)
    (store : Store) :
  let all_total := NonZeroSubsectionGrade.all_total (CreateSubsectionGrade.super self) in
  let graded_total := NonZeroSubsectionGrade.graded_total (CreateSubsectionGrade.super self) in
  let params := _persisted_model_params self student in
  update_or_create_model Store update_or_create_grade self student score_deleted store
  = (if bool_decide (is_Some (AggregatedScore.first_attempted all_total)) || score_deleted
     then match update_or_create_grade params store with
          | (Ok grade, store') => (Ok (Some grade), store')
          | (Raise e, store') => (Raise e, store')
          end
     else (Ok None, store))
  /\ p_earned_all params = AggregatedScore.earned all_total
  /\ p_possible_all params = AggregatedScore.possible all_total
  /\ p_earned_graded params = AggregatedScore.earned graded_total
  /\ p_possible_graded params = AggregatedScore.possible graded_total
  /\ p_first_attempted params = AggregatedScore.first_attempted all_total.
Proof.
  intros all_total graded_total params. split_and!; try done.
  unfold update_or_create_model, _should_persist_per_attempted. fold all_total params.
  destruct (AggregatedScore.first_attempted all_total) as [t|]; simpl.
  - unfold bind, ret. by destruct (update_or_create_grade params store) as [[grade|e] store'].
  - destruct score_deleted; [|done]. simpl.
    unfold bind, ret. by destruct (update_or_create_grade params store) as [[grade|e] store'].
Qed.

(** The first read of the problem scores of a grade read from a record
    runs the loop over the stored blocks and stores the result. *)
Lemma read_problem_scores_fresh (self : ReadSubsectionGrade.t) :
  ReadSubsectionGrade.problem_scores_cache self = None ->
  let m := fill (stored_block get_score (ReadSubsectionGrade.factory self))
             (PersistentSubsectionGrade.visible_blocks (ReadSubsectionGrade.model self)) [] in
  read_problem_scores self = (Ok m, ReadSubsectionGrade.set_problem_scores m self).
Proof.
  intros Hc m. unfold ReadSubsectionGrade_problem_scores.
  apply lazy_fresh; [done |].
  unfold bind, get, lift. by rewrite read_problem_scores_fill.
Qed.

Lemma zero_problem_scores_fresh (self : ZeroSubsectionGrade.t) :
  ZeroSubsectionGrade.problem_scores_cache self = None ->
  let structure := structure (ZeroSubsectionGrade.course_data self) in
  let block_keys :=
    traversal_of structure (SubsectionGradeBase.location (ZeroSubsectionGrade.base self)) in
  zero_problem_scores self
  = if all_present structure block_keys
    then let m := fill (scored_block get_score structure ∅ ∅ None) block_keys [] in
         (Ok m, ZeroSubsectionGrade.set_problem_scores m self)
    else (Raise KeyError, self).
Proof.
  intros Hc structure block_keys. unfold ZeroSubsectionGrade_problem_scores.
  destruct (all_present structure block_keys) eqn:Hall.
  - apply lazy_fresh; [done |]. unfold bind, get, lift.
    rewrite zero_locations_fill. fold structure block_keys. by rewrite Hall.
  - apply lazy_raise; [done |]. unfold bind, get, lift.
    rewrite zero_locations_fill. fold structure block_keys. by rewrite Hall.
Qed.

(** The constructor of a freshly computed grade does not raise. *)
Lemma create_init_ok (subsection : Subsection) (course_structure : BlockStructure)
    (submissions_scores : SubmissionsScores) (csm_scores : CsmScores) :
  let m := fill (scored_block get_score course_structure submissions_scores csm_scores None)
             (traversal_of course_structure (location subsection)) [] in
  create_init subsection course_structure submissions_scores csm_scores
  = Ok (CreateSubsectionGrade.mk
          (NonZeroSubsectionGrade_init display_name_with_default_escaped url_name_for_block
             subsection
             (graders.total false (values m))
             (graders.total true (List.filter ProblemScore.graded (values m)))
             None)
          m).
Proof.
  intros m. unfold CreateSubsectionGrade_init.
  by rewrite create_problem_scores_fill.
Qed.

(** C7: the problem scores of a grade read from a persisted record are
    not computed by the constructor; the first read computes them from
    the record's stored blocks and keeps them, and does not raise.  The
    mapping holds exactly the stored blocks that are in the current
    course structure, have [has_score] set and get a score; a stored
    block that is not in the structure is skipped. *)
Theorem read_problem_scores_rehydrated
    (subsection : Subsection) (model : PersistentSubsectionGrade.t)
    (factory : SubsectionGradeFactory) :
  let self := read_init subsection model factory in
  let structure := structure (course_data factory) in
  let score_of (block : BlockRecord.t) :=
    get_score (_submissions_scores factory) (_csm_scores factory) (Some block) in
  ReadSubsectionGrade.problem_scores_cache self = None
  /\ exists m,
       read_problem_scores self = (Ok m, ReadSubsectionGrade.set_problem_scores m self)
       /\ read_problem_scores (ReadSubsectionGrade.set_problem_scores m self)
          = (Ok m, ReadSubsectionGrade.set_problem_scores m self)
       /\ (forall k v, (k, v) ∈ m ->
             exists stored block,
               stored ∈ PersistentSubsectionGrade.visible_blocks model
               /\ BlockRecord.locator stored = k
               /\ structure !! k = Some block
               /\ getattr_has_score block = true
               /\ score_of stored block = Some v)
       /\ (forall stored block v,
             stored ∈ PersistentSubsectionGrade.visible_blocks model ->
             structure !! BlockRecord.locator stored = Some block ->
             getattr_has_score block = true ->
             score_of stored block = Some v ->
             BlockRecord.locator stored ∈ keys m)
       /\ (forall k, k ∈ keys m -> is_Some (structure !! k))
       /\ (forall stored,
             structure !! BlockRecord.locator stored = None ->
             _compute_block_score get_score (BlockRecord.locator stored) structure
               (_submissions_scores factory) (_csm_scores factory) (Some stored)
             = Ok None).
Proof.
  intros self structure score_of. subst structure score_of. split; [done |].
  eexists. split; [by apply read_problem_scores_fresh |].
  split; [by apply lazy_cached |].
  simpl. split_and!.
  - intros k v Hin. apply elem_of_fill in Hin as [Hin|(stored & Hstored & Hf)].
    { by apply elem_of_nil in Hin. }
    unfold stored_block in Hf.
    pose proof (scored_block_key _ _ _ _ _ _ _ _ Hf) as ->.
    apply scored_block_Some in Hf as (block & ? & ? & ?).
    by exists stored, block.
  - intros stored block v Hstored Hblock Hscore Hget.
    apply elem_of_keys_fill. right. exists stored, v. split; [done |].
    apply scored_block_Some. by exists block.
  - intros k Hk. apply elem_of_keys_fill in Hk as [Hk|(stored & v & _ & Hf)].
    { by apply elem_of_nil in Hk. }
    unfold stored_block in Hf.
    pose proof (scored_block_key _ _ _ _ _ _ _ _ Hf) as ->.
    apply scored_block_Some in Hf as (block & -> & _). by eexists.
  - intros stored Hnone. rewrite _compute_block_score_eq.
    unfold scored_block. by rewrite Hnone.
Qed.

(** C8: in every grade variant the problem-score mapping has unique keys
    and keeps an order: the keys of a computed grade (zero-value or
    freshly computed) follow the post-order traversal, those of a grade
    read from a record follow the stored blocks.  The zero-value grade
    has no mapping only when a key of the traversal is missing from the
    structure, which raises [KeyError]. *)
Theorem problem_scores_ordered_with_unique_keys :
  (forall subsection course_structure submissions_scores csm_scores,
     exists self,
       create_init subsection course_structure submissions_scores csm_scores = Ok self
       /\ NoDup (keys (CreateSubsectionGrade.problem_scores self))
       /\ keys (CreateSubsectionGrade.problem_scores self)
            `sublist_of` traversal_of course_structure (location subsection))
  /\ (forall subsection model factory,
        exists m,
          fst (read_problem_scores (read_init subsection model factory)) = Ok m
          /\ NoDup (keys m)
          /\ keys m `sublist_of`
               (BlockRecord.locator <$> PersistentSubsectionGrade.visible_blocks model))
  /\ (forall subsection course_data,
        match fst (zero_problem_scores (zero_init subsection course_data)) with
        | Ok m =>
            NoDup (keys m)
            /\ keys m `sublist_of` traversal_of (structure course_data) (location subsection)
        | Raise e =>
            e = KeyError
            /\ exists block_key,
                 block_key ∈ traversal_of (structure course_data) (location subsection)
                 /\ structure course_data !! block_key = None
        end).
Proof.
  split_and!.
  - intros subsection course_structure submissions_scores csm_scores.
    eexists. split; [apply create_init_ok |]. simpl. split.
    + apply NoDup_keys_fill, NoDup_nil_2.
    + destruct (keys_fill (@Datatypes.id UsageKey)
                  (scored_block get_score course_structure submissions_scores csm_scores None)
                  (traversal_of course_structure (location subsection)) [])
        as (news & -> & Hsub).
      { intros a k v. apply scored_block_key. }
      by rewrite list_fmap_id in Hsub.
  - intros subsection model factory. eexists.
    rewrite read_problem_scores_fresh by done. split; [done |]. simpl. split.
    + apply NoDup_keys_fill, NoDup_nil_2.
    + destruct (keys_fill BlockRecord.locator (stored_block get_score factory)
                  (PersistentSubsectionGrade.visible_blocks model) [])
        as (news & -> & Hsub); [|done].
      intros a k v. apply scored_block_key.
  - intros subsection course_data.
    rewrite zero_problem_scores_fresh by done. simpl.
    destruct (all_present _ _) eqn:Hall; simpl.
    + split; [apply NoDup_keys_fill, NoDup_nil_2 |].
      destruct (keys_fill (@Datatypes.id UsageKey) (scored_block get_score (structure course_data) ∅ ∅ None)
                  (traversal_of (structure course_data) (location subsection)) [])
        as (news & -> & Hsub).
      { intros a k v. apply scored_block_key. }
      by rewrite list_fmap_id in Hsub.
    + split; [done |]. by apply all_present_false.
Qed.

(** Reading the problem scores of a zero-value grade gives a mapping,
    or the [KeyError] of the traversal loop. *)
Lemma zero_problem_scores_cases (self : ZeroSubsectionGrade.t) :
  (exists m self', zero_problem_scores self = (Ok m, self'))
  \/ (exists self', zero_problem_scores self = (Raise KeyError, self')).
Proof.
  destruct (ZeroSubsectionGrade.problem_scores_cache self) as [m|] eqn:Hc.
  - left. exists m, self. by apply lazy_cached.
  - rewrite zero_problem_scores_fresh by done.
    destruct (all_present _ _); [left | right]; by eauto.
Qed.

Lemma zero_aggregate_scores_cases (self : ZeroSubsectionGrade.t) :
  (exists scores self', zero_aggregate_scores self = (Ok scores, self'))
  \/ (exists self', zero_aggregate_scores self = (Raise KeyError, self')).
Proof.
  unfold ZeroSubsectionGrade__aggregate_scores, lazy.
  destruct (ZeroSubsectionGrade._aggregate_scores_cache self) as [scores|];
    [left; by eauto |].
  unfold bind, ret.
  destruct (zero_problem_scores_cases self) as [(m & self' & ->)|(self' & ->)];
    [left | right]; by eauto.
Qed.

(** The all-total of a zero-value grade is never [None]. *)
Lemma zero_all_total_cases (self : ZeroSubsectionGrade.t) :
  (exists total self', @all_total _ zero_ops self = (Ok (Some total), self'))
  \/ (exists self', @all_total _ zero_ops self = (Raise KeyError, self')).
Proof.
  cbn. unfold ZeroSubsectionGrade_all_total, bind, ret.
  destruct (zero_aggregate_scores_cases self) as [(scores & self' & ->)|(self' & ->)];
    [left | right]; by eauto.
Qed.

(** C10, as the code has it: reading [attempted] from a grade whose
    [all_total] is [None] raises [AssertionError] (an object of the base
    class alone has no [all_total] and raises [AttributeError]).
    [NonZeroSubsectionGrade.__init__] stores the [all_total] it is given
    without a check.  The grades built by the constructors of
    [ZeroSubsectionGrade], [ReadSubsectionGrade] and
    [CreateSubsectionGrade] have a total there (the two subclasses pass
    an [AggregatedScore], the zero-value grade computes one), so for them
    [attempted] never raises [AssertionError]. *)
Theorem attempted_asserts_all_total_populated :
  (forall G (ops : SubsectionGrade G) (self : G),
     match @all_total G ops self with
     | (Ok None, self') => @attempted G ops self = (Raise AssertionError, self')
     | (Ok (Some total), self') =>
         @attempted G ops self = (Ok (AggregatedScore.attempted total), self')
     | (Raise e, self') => @attempted G ops self = (Raise e, self')
     end)
  /\ (forall subsection graded_total override,
        let self :=
          NonZeroObject_init display_name_with_default_escaped url_name_for_block
            subsection None graded_total override in
        @all_total _ NonZeroObject_grade self = (Ok None, self)
        /\ @attempted _ NonZeroObject_grade self = (Raise AssertionError, self))
  /\ (forall self : SubsectionGradeBase.t,
        @attempted _ SubsectionGradeBase_grade self = (Raise AttributeError, self))
  /\ (forall subsection all_total graded_total override,
        NonZeroObject.of_grade
          (NonZeroSubsectionGrade_init display_name_with_default_escaped url_name_for_block
             subsection all_total graded_total override)
        = NonZeroObject_init display_name_with_default_escaped url_name_for_block
            subsection (Some all_total) (Some graded_total) override)
  /\ (forall subsection model factory,
        let self :=
          NonZeroObject.of_grade
            (ReadSubsectionGrade.super (read_init subsection model factory)) in
        exists total,
          @all_total _ NonZeroObject_grade self = (Ok (Some total), self)
          /\ @attempted _ NonZeroObject_grade self
             = (Ok (AggregatedScore.attempted total), self))
  /\ (forall subsection course_structure submissions_scores csm_scores,
        exists created total,
          create_init subsection course_structure submissions_scores csm_scores = Ok created
          /\ @all_total _ NonZeroObject_grade
               (NonZeroObject.of_grade (CreateSubsectionGrade.super created))
             = (Ok (Some total), NonZeroObject.of_grade (CreateSubsectionGrade.super created))
          /\ @attempted _ NonZeroObject_grade
               (NonZeroObject.of_grade (CreateSubsectionGrade.super created))
             = (Ok (AggregatedScore.attempted total),
                NonZeroObject.of_grade (CreateSubsectionGrade.super created)))
  /\ (forall subsection course_data,
        let self := zero_init subsection course_data in
        fst (@all_total _ zero_ops self) <> Ok None
        /\ fst (@attempted _ zero_ops self) <> Raise AssertionError)
  /\ (forall self : ZeroSubsectionGrade.t,
        fst (@all_total _ zero_ops self) <> Ok None
        /\ fst (@attempted _ zero_ops self) <> Raise AssertionError).
Proof.
  assert (forall G (ops : SubsectionGrade G) (self : G),
            match @all_total G ops self with
            | (Ok None, self') => @attempted G ops self = (Raise AssertionError, self')
            | (Ok (Some total), self') =>
                @attempted G ops self = (Ok (AggregatedScore.attempted total), self')
            | (Raise e, self') => @attempted G ops self = (Raise e, self')
            end) as Hcases.
  { intros G ops self. unfold attempted, bind.
    by destruct (all_total self) as [[[total|]|e] self']. }
  assert (forall self : ZeroSubsectionGrade.t,
            fst (@all_total _ zero_ops self) <> Ok None
            /\ fst (@attempted _ zero_ops self) <> Raise AssertionError) as Hzero.
  { intros self. specialize (Hcases _ zero_ops self).
    destruct (zero_all_total_cases self) as [(total & self' & Heq)|(self' & Heq)];
      rewrite Heq in Hcases |- *; rewrite Hcases; done. }
  split_and!; [done | done | done | done | | | | done].
  - intros subsection model factory self. by eexists.
  - intros subsection course_structure submissions_scores csm_scores.
    eexists _, _. split; [apply create_init_ok |]. by split.
  - intros subsection course_data self. apply Hzero.
Qed.

Lemma graded_entries_sublist (scores : list ProblemScore.t) :
  List.filter ProblemScore.graded scores `sublist_of` scores.
Proof.
  induction scores as [|score scores IH]; simpl; [done |].
  destruct (ProblemScore.graded score); by constructor.
Qed.

Lemma elem_of_graded_entries (scores : list ProblemScore.t) (score : ProblemScore.t) :
  score ∈ List.filter ProblemScore.graded scores
  <-> score ∈ scores /\ ProblemScore.graded score = true.
Proof. by rewrite !list_elem_of_In, filter_In. Qed.

(** C4, as the code has it: in a zero-value grade and in a freshly
    computed grade both aggregates are computed from the grade's one
    problem-score mapping, the all-total from all of its scores and the
    graded-total from its graded scores, which are a part of them.  A
    grade read from a persisted record takes both aggregates from the
    record's stored totals. *)
Theorem computed_totals_from_one_mapping :
  (forall subsection course_structure submissions_scores csm_scores,
     exists self,
       create_init subsection course_structure submissions_scores csm_scores = Ok self
       /\ aggregates_of_mapping
            (NonZeroSubsectionGrade.all_total (CreateSubsectionGrade.super self))
            (NonZeroSubsectionGrade.graded_total (CreateSubsectionGrade.super self))
            (CreateSubsectionGrade.problem_scores self))
  /\ (forall subsection course_data,
        let self := zero_init subsection course_data in
        match fst (zero_aggregate_scores self) with
        | Ok (all_total, graded_total) =>
            exists m,
              fst (zero_problem_scores self) = Ok m
              /\ aggregates_of_mapping all_total graded_total m
        | Raise e => fst (zero_problem_scores self) = Raise e
        end)
  /\ (forall scores : list ProblemScore.t,
        List.filter ProblemScore.graded scores `sublist_of` scores
        /\ forall score,
             score ∈ List.filter ProblemScore.graded scores
             <-> score ∈ scores /\ ProblemScore.graded score = true)
  /\ (forall subsection model factory,
        let self := ReadSubsectionGrade.super (read_init subsection model factory) in
        NonZeroSubsectionGrade.all_total self
          = AggregatedScore.mk
              (PersistentSubsectionGrade.earned_all model)
              (PersistentSubsectionGrade.possible_all model)
              false
              (PersistentSubsectionGrade.first_attempted model)
        /\ NonZeroSubsectionGrade.graded_total self
           = AggregatedScore.mk
               (PersistentSubsectionGrade.earned_graded model)
               (PersistentSubsectionGrade.possible_graded model)
               true
               (PersistentSubsectionGrade.first_attempted model)).
Proof.
  split_and!.
  - intros subsection course_structure submissions_scores csm_scores.
    eexists. split; [apply create_init_ok |]. by split.
  - intros subsection course_data self.
    unfold ZeroSubsectionGrade__aggregate_scores, lazy. simpl. unfold bind, ret.
    rewrite zero_problem_scores_fresh by done. simpl.
    destruct (all_present _ _); simpl; [|done].
    eexists. split; [done |]. by split.
  - intros scores. split; [apply graded_entries_sublist |].
    intros score. apply elem_of_graded_entries.
  - by intros subsection model factory.
Qed.

(** C6, as the code has it: a zero-value grade has [attempted_graded]
    false and [percent_graded] [0.0], and its constructor computes no
    score.  Its problem-score mapping is not empty in general: it holds,
    for every block of the traversal that has [has_score] set and gets a
    score, the score looked up with empty score sources (no submissions,
    no rows of the legacy table, no persisted block), and it is empty only
    when the traversal has no such block. *)
Theorem zero_grade_scores_from_empty_sources (subsection : Subsection) (course_data : CourseData) :
  let self := zero_init subsection course_data in
  let block_keys := traversal_of (structure course_data) (location subsection) in
  @attempted_graded _ zero_ops self = (Ok false, self)
  /\ @percent_graded _ zero_ops self = (Ok fzero, self)
  /\ ZeroSubsectionGrade.problem_scores_cache self = None
  /\ match fst (zero_problem_scores self) with
     | Ok m =>
         (forall k v, (k, v) ∈ m ->
            k ∈ block_keys
            /\ exists block, structure course_data !! k = Some block
                             /\ getattr_has_score block = true
                             /\ get_score ∅ ∅ None block = Some v)
         /\ (forall k block v,
               k ∈ block_keys ->
               structure course_data !! k = Some block ->
               getattr_has_score block = true ->
               get_score ∅ ∅ None block = Some v ->
               k ∈ keys m)
         /\ (m = [] <->
             forall k, k ∈ block_keys ->
                       scored_block get_score (structure course_data) ∅ ∅ None k = None)
     | Raise e =>
         e = KeyError
         /\ exists k, k ∈ block_keys /\ structure course_data !! k = None
     end.
Proof.
  intros self block_keys. split_and!; try done.
  rewrite zero_problem_scores_fresh by done. simpl. fold block_keys.
  destruct (all_present _ _) eqn:Hall; simpl.
  - split_and!.
    + intros k v Hin. apply elem_of_fill in Hin as [Hin|(k' & Hk' & Hf)].
      { by apply elem_of_nil in Hin. }
      pose proof (scored_block_key _ _ _ _ _ _ _ _ Hf) as ->.
      split; [done |]. by apply scored_block_Some in Hf.
    + intros k block v Hk Hblock Hscore Hget.
      apply elem_of_keys_fill. right. exists k, v. split; [done |].
      apply scored_block_Some. by exists block.
    + apply fill_nil_iff.
  - split; [done |]. by apply all_present_false.
Qed.

End Grades.

(** ** The worked examples *)

Section ExampleGrades.
Import subsection_grade.

(** C6, refuted as stated: the zero-value grade of a subsection with one
    scorable problem has a problem-score mapping with one entry, the
    problem's score with nothing earned, so the mapping is not empty. *)
Lemma zero_grade_mapping_not_empty :
  fst (ZeroSubsectionGrade_problem_scores Examples.possibly_scored
         Examples.post_order_traversal Examples.get_score Examples.zero_grade)
    = Ok [("problem1", Examples.problem1_unattempted)]
  /\ fst (ZeroSubsectionGrade_problem_scores Examples.possibly_scored
           Examples.post_order_traversal Examples.get_score Examples.zero_grade)
     <> Ok [].
Proof. split; [by vm_compute | by vm_compute]. Qed.

(** C4, refuted as stated: a grade read from a record that was persisted
    with one point earned, after the problem left the course, has an
    empty problem-score mapping and the stored totals, which are not the
    totals of that mapping. *)
Lemma read_grade_totals_not_from_mapping :
  fst (ReadSubsectionGrade_problem_scores Examples.get_score Examples.read_grade) = Ok []
  /\ AggregatedScore.earned
       (NonZeroSubsectionGrade.all_total (ReadSubsectionGrade.super Examples.read_grade))
     = Examples.one
  /\ ~ aggregates_of_mapping
         (NonZeroSubsectionGrade.all_total (ReadSubsectionGrade.super Examples.read_grade))
         (NonZeroSubsectionGrade.graded_total (ReadSubsectionGrade.super Examples.read_grade))
         [].
Proof.
  split_and!; [by vm_compute | done |].
  intros [Hall _]. vm_compute in Hall. discriminate.
Qed.

(** C10, refuted as stated: a grade made by
    [NonZeroSubsectionGrade.__init__] with [None] for both totals is
    constructed without an error, its [all_total] is [None], and reading
    [attempted] from it raises [AssertionError]. *)
Lemma nonzero_grade_made_with_none_asserts :
  NonZeroObject.all_total
    (NonZeroObject_init Examples.display_name_with_default_escaped
       Examples.url_name_for_block Examples.homework1 None None None)
    = None
  /\ fst (@attempted _ NonZeroObject_grade
            (NonZeroObject_init Examples.display_name_with_default_escaped
               Examples.url_name_for_block Examples.homework1 None None None))
     = Raise AssertionError.
Proof. by split. Qed.

(** With a store that logs the persistence calls, the freshly computed
    grade of the example course (nothing attempted) is persisted only
    when the score was just deleted. *)
Example unattempted_grade_persisted_only_on_delete :
  match CreateSubsectionGrade_init Examples.display_name_with_default_escaped
          Examples.url_name_for_block Examples.possibly_scored
          Examples.post_order_traversal Examples.get_score
          Examples.homework1 Examples.course ∅ ∅ with
  | Ok self =>
      update_or_create_model _ Examples.update_or_create_grade self {| id := 7%Z |} false []
        = (Ok None, [])
      /\ snd (update_or_create_model _ Examples.update_or_create_grade
                self {| id := 7%Z |} true [])
         = [_persisted_model_params self {| id := 7%Z |}]
  | Raise _ => False
  end.
Proof. by vm_compute. Qed.

(** One of two graded points gives [0.5]; a graded part without possible
    points gives [0.0], and the division is not attempted. *)
Example percent_graded_half :
  NonZeroSubsectionGrade.percent_graded Examples.half_earned = Ok Examples.half
  /\ NonZeroSubsectionGrade.percent_graded Examples.nothing_graded = Ok fzero
  /\ truediv fzero (S754_zero true) = Raise ZeroDivisionError.
Proof. by vm_compute. Qed.

End ExampleGrades.

(** ** Course-overview signal handlers *)

Section Signals.
Import course_overviews.

Local Abbreviation by_id rows :=
  (foldl (fun (d : gmap CourseKey CourseOverview.t) row => <[CourseOverview.id row := row]> d)
     ∅ rows).

Lemma by_id_snoc (rows : list CourseOverview.t) (row : CourseOverview.t) :
  by_id (rows ++ [row]) = <[CourseOverview.id row := row]> (by_id rows).
Proof. by rewrite foldl_app. Qed.

Lemma by_id_lookup_Some (rows : list CourseOverview.t) (k : CourseKey) (o : CourseOverview.t) :
  by_id rows !! k = Some o -> o ∈ rows /\ CourseOverview.id o = k.
Proof.
  induction rows as [|row rows IH] using rev_ind; [done |].
  rewrite by_id_snoc, elem_of_app, list_elem_of_singleton.
  destruct (decide (CourseOverview.id row = k)) as [<-|Hne].
  - rewrite lookup_insert_eq. intros [= <-]. tauto.
  - rewrite lookup_insert_ne by done. intros Hrows. destruct (IH Hrows). tauto.
Qed.

Lemma by_id_lookup_is_Some (rows : list CourseOverview.t) (k : CourseKey) :
  is_Some (by_id rows !! k) <-> exists row, row ∈ rows /\ CourseOverview.id row = k.
Proof.
  induction rows as [|row rows IH] using rev_ind.
  - simpl. rewrite lookup_empty. split; [by intros [? ?] |].
    intros (row & Hrow & _). by apply elem_of_nil in Hrow.
  - rewrite by_id_snoc. destruct (decide (CourseOverview.id row = k)) as [<-|Hne].
    + rewrite lookup_insert_eq. split; [|by eauto].
      intros _. exists row. split; [|done]. apply elem_of_app. right. by left.
    + rewrite lookup_insert_ne, IH by done. split.
      * intros (row' & Hrow' & Hid). exists row'. split; [|done].
        apply elem_of_app. by left.
      * intros (row' & Hrow' & Hid). apply elem_of_app in Hrow' as [Hrow'|Hrow'].
        -- by exists row'.
        -- apply list_elem_of_singleton in Hrow'. by subst.
Qed.

Lemma elem_of_List_filter {A} (P : A -> bool) (l : list A) (x : A) :
  x ∈ List.filter P l <-> x ∈ l /\ P x = true.
Proof. by rewrite !list_elem_of_In, filter_In. Qed.

Lemma List_filter_sublist {A} (P : A -> bool) (l : list A) : List.filter P l `sublist_of` l.
Proof.
  induction l as [|x l IH]; simpl; [done |].
  destruct (P x); by constructor.
Qed.

(** The overview that the publish handler finds before it reloads the
    course: a row of the table with the course's id, if there is one. *)
Lemma get_from_ids_if_exists_lookup (course_key : CourseKey) (w : World) :
  exists found,
    get_from_ids_if_exists [course_key] w = (Ok found, w)
    /\ (forall o, found !! course_key = Some o ->
                  o ∈ overviews w /\ CourseOverview.id o = course_key)
    /\ (is_Some (found !! course_key)
        <-> exists row, row ∈ overviews w /\ CourseOverview.id row = course_key).
Proof.
  eexists. split; [done |]. split.
  - intros o Hfound. apply by_id_lookup_Some in Hfound as [Hin Hid].
    apply elem_of_List_filter in Hin as [Hin _]. done.
  - rewrite by_id_lookup_is_Some. split.
    + intros (row & Hin & Hid). apply elem_of_List_filter in Hin as [Hin _]. by eauto.
    + intros (row & Hin & Hid). exists row. split; [|done].
      apply elem_of_List_filter. split; [done |].
      apply bool_decide_eq_true. rewrite Hid. by left.
Qed.

(** C5: on a course-deleted event the rows of the overview table whose id
    is the deleted course key are deleted and every other row stays, in
    its place; the course's entry leaves the Course About search index,
    and no signal is sent. *)
Theorem course_delete_removes_only_its_overview (course_key : CourseKey) (w : World) :
  exists w',
    _listen_for_course_delete course_key w = (Ok tt, w')
    /\ (forall row, row ∈ overviews w'
                    <-> row ∈ overviews w /\ CourseOverview.id row <> course_key)
    /\ overviews w' `sublist_of` overviews w
    /\ (forall k, k ∈ about_index w' <-> k ∈ about_index w /\ k <> course_key)
    /\ sent w' = sent w.
Proof.
  eexists. split; [reflexivity |]. simpl. split_and!.
  - intros row. rewrite elem_of_List_filter, negb_true_iff, bool_decide_eq_false. done.
  - apply List_filter_sublist.
  - intros k. set_solver.
  - done.
Qed.

Variable load_from_module_store : CourseKey -> M World CourseOverview.t.

(** C3: the publish handler looks up the cached overview of the course,
    reloads the overview, and then sends [COURSE_START_DATE_CHANGED]
    exactly when there was a cached overview whose [start] differs from
    the reloaded one's, and [COURSE_PACING_CHANGED] exactly when there was
    one whose [self_paced] differs; with no cached overview it sends
    nothing.  The handler sends nothing either when the reload raises. *)
Theorem course_publish_sends_narrower_signals (course_key : CourseKey) (w : World) :
  exists found,
    get_from_ids_if_exists [course_key] w = (Ok found, w)
    /\ (is_Some (found !! course_key)
        <-> exists row, row ∈ overviews w /\ CourseOverview.id row = course_key)
    /\ let previous := found !! course_key in
       match load_from_module_store course_key w with
       | (Ok updated, w1) =>
           let date_signals :=
             match previous with
             | Some p =>
                 if decide (CourseOverview.start p <> CourseOverview.start updated)
                 then [COURSE_START_DATE_CHANGED updated (CourseOverview.start p)]
                 else []
             | None => []
             end in
           let pacing_signals :=
             match previous with
             | Some p =>
                 if decide (CourseOverview.self_paced p <> CourseOverview.self_paced updated)
                 then [COURSE_PACING_CHANGED updated (CourseOverview.self_paced p)]
                 else []
             | None => []
             end in
           exists w2,
             _listen_for_course_publish load_from_module_store course_key w = (Ok tt, w2)
             /\ sent w2 = sent w1 ++ date_signals ++ pacing_signals
             /\ overviews w2 = overviews w1
             /\ about_index w2 = about_index w1
             /\ ((exists s, s ∈ date_signals ++ pacing_signals
                            /\ is_start_date_changed s = true)
                 <-> exists p, previous = Some p
                               /\ CourseOverview.start p <> CourseOverview.start updated)
             /\ ((exists s, s ∈ date_signals ++ pacing_signals
                            /\ is_pacing_changed s = true)
                 <-> exists p, previous = Some p
                               /\ CourseOverview.self_paced p
                                  <> CourseOverview.self_paced updated)
             /\ (previous = None -> date_signals ++ pacing_signals = [])
       | (Raise e, w1) =>
           _listen_for_course_publish load_from_module_store course_key w = (Raise e, w1)
       end.
Proof.
  destruct (get_from_ids_if_exists_lookup course_key w) as (found & Hget & _ & Hsome).
  exists found. split; [done |]. split; [done |]. intros previous.
  unfold _listen_for_course_publish, bind. rewrite Hget. fold previous.
  destruct (load_from_module_store course_key w) as [[updated|e] w1]; [|done].
  destruct previous as [p|]; simpl.
  - unfold _check_for_course_date_changes, _check_for_pacing_changes, bind.
    destruct (decide (CourseOverview.start p <> CourseOverview.start updated)) as [Hd|Hd];
      destruct (decide (CourseOverview.self_paced p <> CourseOverview.self_paced updated))
        as [Hp|Hp];
      simpl; eexists; (split; [reflexivity |]); simpl;
      (split_and!; [by rewrite <- ?app_assoc, ?app_nil_r | done | done | | | done]).
    all: split;
      [ intros (s & Hs & Htrue);
        repeat (apply elem_of_cons in Hs as [->|Hs]; [try done; by eauto |]);
        by apply elem_of_nil in Hs
      | intros (p' & [= <-] & Hneq); try done;
        first
          [ exists (COURSE_START_DATE_CHANGED updated (CourseOverview.start p));
            split; [rewrite !elem_of_cons; tauto | done]
          | exists (COURSE_PACING_CHANGED updated (CourseOverview.self_paced p));
            split; [rewrite !elem_of_cons; tauto | done] ] ].
  - eexists. split; [reflexivity |]. simpl.
    split_and!; [by rewrite app_nil_r | done | done | | | done].
    + split; [intros (s & Hs & _); by apply elem_of_nil in Hs | by intros (p & ? & _)].
    + split; [intros (s & Hs & _); by apply elem_of_nil in Hs | by intros (p & ? & _)].
Qed.

End Signals.

Section ExampleSignals.
Import course_overviews.

(** Republishing the example course with a new start date and the same
    pacing sends the date signal only; deleting it leaves the other
    course's overview alone. *)
Example republish_sends_date_signal :
  sent (snd (_listen_for_course_publish Examples.load_from_module_store
               "course-v1:edX+Demo+2017" Examples.world))
    = [COURSE_START_DATE_CHANGED Examples.republished_overview (Some 100%Z)]
  /\ sent (snd (_listen_for_course_publish Examples.load_from_module_store
                  "course-v1:edX+New+2017" Examples.world))
     = []
  /\ overviews (snd (_listen_for_course_delete "course-v1:edX+Demo+2017" Examples.world))
     = [Examples.other_overview].
Proof. by vm_compute. Qed.

End ExampleSignals.

(** * Further properties of the code *)

(** ** What a filled mapping holds for a key *)

Section FillLookup.
Context {A K V : Type} `{EqDecision K}.
Implicit Types (f : A -> option (K * V)) (l : list A) (d : OrderedDict K V).

Lemma elem_of_setitem_same (k : K) (v : V) d : (k, v) ∈ setitem k v d.
Proof.
  induction d as [|[k' v'] d IH]; simpl; [by left |].
  case_decide; [by left | by right].
Qed.

Lemma elem_of_setitem_other (k k' : K) (v v' : V) d :
  k <> k' -> (k, v) ∈ d -> (k, v) ∈ setitem k' v' d.
Proof.
  intros Hne. induction d as [|[k0 v0] d IH]; simpl; [by intros ?%elem_of_nil |].
  rewrite elem_of_cons. case_decide as Hk; subst.
  - intros [[= ? ?]|Hin]; [done | by right].
  - intros [->|Hin]; [by left | right; by apply IH].
Qed.

(** When the items of a list agree on the value of a key, the filled
    mapping holds that value for the key as soon as one item assigns it. *)
Lemma elem_of_fill_agree f l d (k : K) (v : V) :
  (forall a v', a ∈ l -> f a = Some (k, v') -> v' = v) ->
  ((k, v) ∈ d \/ exists a, a ∈ l /\ f a = Some (k, v)) ->
  (k, v) ∈ fill f l d.
Proof.
  revert d. induction l as [|a l IH]; intros d Hagree Hin.
  - destruct Hin as [Hin|(a & Ha & _)]; [done | by apply elem_of_nil in Ha].
  - rewrite fill_cons. apply IH.
    { intros a' v' Ha'. apply Hagree. by right. }
    destruct (f a) as [[k0 v0]|] eqn:Hfa.
    + destruct (decide (k0 = k)) as [->|Hne].
      * left. rewrite (Hagree a v0) by (done || by left). apply elem_of_setitem_same.
      * destruct Hin as [Hin|(a' & Ha' & Hf)].
        -- left. by apply elem_of_setitem_other.
        -- apply elem_of_cons in Ha' as [->|Ha']; [congruence |]. right. by exists a'.
    + destruct Hin as [Hin|(a' & Ha' & Hf)]; [by left |].
      apply elem_of_cons in Ha' as [->|Ha']; [congruence |]. right. by exists a'.
Qed.

End FillLookup.

Lemma all_present_true (structure : gmap string subsection_grade.Block)
    (block_keys : list string) :
  all_present structure block_keys = true <->
  forall block_key, block_key ∈ block_keys -> is_Some (structure !! block_key).
Proof.
  unfold all_present. rewrite forallb_forall. split.
  - intros Hall k Hk. apply list_elem_of_In in Hk. by apply Hall, bool_decide_eq_true in Hk.
  - intros Hall k Hk. apply bool_decide_eq_true, Hall. by apply list_elem_of_In.
Qed.

(** ** More on subsection grades *)

Section MoreGrades.
Import subsection_grade.
Variable display_name_with_default_escaped : Subsection -> string.
Variable url_name_for_block : Subsection -> string.
Variable possibly_scored : UsageKey -> bool.
Variable post_order_traversal : BlockStructure -> (UsageKey -> bool) -> UsageKey -> list UsageKey.
Variable get_score :
  SubmissionsScores -> CsmScores -> option BlockRecord.t -> Block -> option ProblemScore.t.
Variable Store : Type.
Variable bulk_create_grades :
  list ModelParams -> UserId -> CourseKey -> M Store (list PersistentSubsectionGrade.t).

Local Abbreviation zero_init :=
  (ZeroSubsectionGrade_init display_name_with_default_escaped url_name_for_block).
Local Abbreviation read_init :=
  (ReadSubsectionGrade_init display_name_with_default_escaped url_name_for_block).
Local Abbreviation create_init :=
  (CreateSubsectionGrade_init display_name_with_default_escaped url_name_for_block
     possibly_scored post_order_traversal get_score).
Local Abbreviation zero_problem_scores :=
  (ZeroSubsectionGrade_problem_scores possibly_scored post_order_traversal get_score).
Local Abbreviation zero_aggregate_scores :=
  (ZeroSubsectionGrade__aggregate_scores possibly_scored post_order_traversal get_score).
Local Abbreviation zero_all_total :=
  (ZeroSubsectionGrade_all_total possibly_scored post_order_traversal get_score).
Local Abbreviation zero_graded_total :=
  (ZeroSubsectionGrade_graded_total possibly_scored post_order_traversal get_score).
Local Abbreviation zero_ops :=
  (ZeroSubsectionGrade_grade possibly_scored post_order_traversal get_score).
Local Abbreviation read_problem_scores := (ReadSubsectionGrade_problem_scores get_score).
Local Abbreviation traversal_of structure start :=
  (post_order_traversal structure possibly_scored start).

(** X1: the constructor of a freshly computed grade never raises, and its
    problem-score mapping holds a score for a block key exactly when the
    key is in the traversal, is in the course structure with [has_score]
    set, and the score lookup (without a persisted block) gives that
    score; a key that is missing from the structure is left out. *)
Theorem create_problem_scores_content
    (subsection : Subsection) (course_structure : BlockStructure)
    (submissions_scores : SubmissionsScores) (csm_scores : CsmScores) :
  exists self,
    create_init subsection course_structure submissions_scores csm_scores = Ok self
    /\ (forall k v,
          (k, v) ∈ CreateSubsectionGrade.problem_scores self
          <-> k ∈ traversal_of course_structure (location subsection)
              /\ exists block, course_structure !! k = Some block
                               /\ getattr_has_score block = true
                               /\ get_score submissions_scores csm_scores None block = Some v)
    /\ (forall k, course_structure !! k = None ->
                  k ∉ keys (CreateSubsectionGrade.problem_scores self)).
Proof.
  eexists. split; [apply create_init_ok |]. simpl. split.
  - intros k v. split.
    + intros Hin. apply elem_of_fill in Hin as [Hin|(k' & Hk' & Hf)].
      { by apply elem_of_nil in Hin. }
      pose proof (scored_block_key _ _ _ _ _ _ _ _ Hf) as ->.
      split; [done |]. by apply scored_block_Some in Hf.
    + intros (Hk & block & Hblock & Hscore & Hget).
      apply elem_of_fill_agree.
      * intros k' v' _ Hf.
        pose proof (scored_block_key _ _ _ _ _ _ _ _ Hf) as <-.
        apply scored_block_Some in Hf as (block' & Hblock' & _ & Hget'). congruence.
      * right. exists k. split; [done |]. apply scored_block_Some. by exists block.
  - intros k Hnone Hk. apply elem_of_keys_fill in Hk as [Hk|(k' & v & _ & Hf)].
    { by apply elem_of_nil in Hk. }
    pose proof (scored_block_key _ _ _ _ _ _ _ _ Hf) as <-.
    apply scored_block_Some in Hf as (block & Hblock & _). congruence.
Qed.

(** X2: reading the problem scores of a zero-value grade raises
    [KeyError] exactly when a key of the traversal is missing from the
    course structure (the loop has no handler for the lookup); the failed
    read stores nothing in the grade, and [attempted] raises the same
    [KeyError]. *)
Theorem zero_problem_scores_raise_iff_missing
    (subsection : Subsection) (course_data : CourseData) :
  let self := zero_init subsection course_data in
  let block_keys := traversal_of (structure course_data) (location subsection) in
  (zero_problem_scores self = (Raise KeyError, self)
   <-> exists k, k ∈ block_keys /\ structure course_data !! k = None)
  /\ ((exists m self', zero_problem_scores self = (Ok m, self'))
      <-> forall k, k ∈ block_keys -> is_Some (structure course_data !! k))
  /\ (zero_problem_scores self = (Raise KeyError, self) ->
      @attempted _ zero_ops self = (Raise KeyError, self)).
Proof.
  intros self block_keys.
  pose proof (zero_problem_scores_fresh possibly_scored post_order_traversal get_score
                self eq_refl) as Hfresh.
  simpl in Hfresh. fold block_keys in Hfresh.
  rewrite <- all_present_false, <- all_present_true. fold block_keys.
  destruct (all_present (structure course_data) block_keys) eqn:Hall.
  - split_and!.
    + rewrite Hfresh. split; [by intros [= ] | done].
    + split; [done |]. intros _. rewrite Hfresh. by eauto.
    + rewrite Hfresh. by intros [= ].
  - split_and!.
    + done.
    + rewrite Hfresh. split; [by intros (m & self' & [= ]) | done].
    + intros Hraise. unfold attempted. cbn.
      unfold ZeroSubsectionGrade_all_total, ZeroSubsectionGrade__aggregate_scores, lazy, bind.
      simpl. fold self. by rewrite Hraise.
Qed.

(** X3: when every key of the traversal is in the course structure, the
    zero-value grade of a subsection has the problem scores and the two
    totals of the grade that is freshly computed for it from empty score
    sources. *)
Theorem zero_grade_is_create_without_scores
    (subsection : Subsection) (course_data : CourseData) :
  all_present (structure course_data)
    (traversal_of (structure course_data) (location subsection)) = true ->
  let self := zero_init subsection course_data in
  exists created self1 self2 self3,
    create_init subsection (structure course_data) ∅ ∅ = Ok created
    /\ zero_problem_scores self = (Ok (CreateSubsectionGrade.problem_scores created), self1)
    /\ zero_all_total self
       = (Ok (NonZeroSubsectionGrade.all_total (CreateSubsectionGrade.super created)), self2)
    /\ zero_graded_total self
       = (Ok (NonZeroSubsectionGrade.graded_total (CreateSubsectionGrade.super created)),
          self3).
Proof.
  intros Hall self.
  pose proof (zero_problem_scores_fresh possibly_scored post_order_traversal get_score
                self eq_refl) as Hfresh.
  simpl in Hfresh. rewrite Hall in Hfresh.
  eexists _, _, _, _. split; [apply create_init_ok |]. simpl.
  split; [exact Hfresh |].
  unfold ZeroSubsectionGrade_all_total, ZeroSubsectionGrade_graded_total,
    ZeroSubsectionGrade__aggregate_scores, lazy, bind, ret.
  simpl. fold self. rewrite Hfresh. by split.
Qed.

(** X4: the first read of a total of a zero-value grade stores the
    problem scores and the pair of totals in the grade; after it, reading
    the problem scores, the all-total and the graded-total returns the
    stored values and leaves the grade as it is, and the two totals are
    the two components of one aggregation of the stored problem scores. *)
Theorem zero_totals_cached_after_first_read
    (subsection : Subsection) (course_data : CourseData) :
  all_present (structure course_data)
    (traversal_of (structure course_data) (location subsection)) = true ->
  let self := zero_init subsection course_data in
  exists total graded m self',
    zero_all_total self = (Ok total, self')
    /\ ZeroSubsectionGrade.problem_scores_cache self' = Some m
    /\ ZeroSubsectionGrade._aggregate_scores_cache self' = Some (total, graded)
    /\ (total, graded) = graders.aggregate_scores (values m)
    /\ zero_problem_scores self' = (Ok m, self')
    /\ zero_all_total self' = (Ok total, self')
    /\ zero_graded_total self' = (Ok graded, self').
Proof.
  intros Hall self.
  pose proof (zero_problem_scores_fresh possibly_scored post_order_traversal get_score
                self eq_refl) as Hfresh.
  simpl in Hfresh. rewrite Hall in Hfresh.
  eexists _, _, _, _. split.
  { unfold ZeroSubsectionGrade_all_total, ZeroSubsectionGrade__aggregate_scores,
      lazy, bind, ret. simpl. fold self. rewrite Hfresh. reflexivity. }
  simpl. split_and!; done.
Qed.

(** X5: [bulk_create_models] makes one call to the bulk persistence
    layer, for the student's id and the course key, with the parameters of
    the grades that are not [None] and have a first attempt, in the order
    of the list; a grade is among them exactly when
    [update_or_create_model] without [score_deleted] would persist it. *)
Theorem bulk_create_models_persists_attempted
    (student : Student) (subsection_grades : list (option CreateSubsectionGrade.t))
    (course_key : CourseKey) (store : Store) :
  bulk_create_models Store bulk_create_grades student subsection_grades course_key store
  = bulk_create_grades
      (map (fun grade => _persisted_model_params grade student)
           (bulk_persisted subsection_grades))
      (id student) course_key store
  /\ bulk_persisted subsection_grades `sublist_of` omap (fun grade => grade) subsection_grades
  /\ (forall grade,
        grade ∈ bulk_persisted subsection_grades
        <-> Some grade ∈ subsection_grades
            /\ is_Some (AggregatedScore.first_attempted
                          (NonZeroSubsectionGrade.all_total
                             (CreateSubsectionGrade.super grade))))
  /\ (forall grade (update_or_create_grade : ModelParams -> M Store PersistentSubsectionGrade.t),
        Some grade ∈ subsection_grades ->
        grade ∉ bulk_persisted subsection_grades ->
        update_or_create_model Store update_or_create_grade grade student false store
        = (Ok None, store)).
Proof.
  assert (forall grade,
            grade ∈ bulk_persisted subsection_grades
            <-> Some grade ∈ subsection_grades
                /\ is_Some (AggregatedScore.first_attempted
                              (NonZeroSubsectionGrade.all_total
                                 (CreateSubsectionGrade.super grade)))) as Hiff.
  { intros grade. unfold bulk_persisted.
    rewrite elem_of_List_filter, list_elem_of_omap. unfold _should_persist_per_attempted.
    rewrite orb_false_r. split.
    - intros [(g & Hg & ->) Hatt]. split; [done |].
      by destruct (AggregatedScore.first_attempted _).
    - intros [Hg [t Hatt]]. split; [by exists (Some grade) | by rewrite Hatt]. }
  split_and!.
  - unfold bulk_create_models, bulk_persisted. f_equal. clear Hiff.
    induction subsection_grades as [|[grade|] grades IH]; csimpl; [done | | done].
    destruct (_should_persist_per_attempted grade false); csimpl; by rewrite IH.
  - apply List_filter_sublist.
  - done.
  - intros grade update_or_create_grade Hin Hnot.
    unfold update_or_create_model.
    destruct (_should_persist_per_attempted grade false) eqn:Hpersist; [|done].
    exfalso. apply Hnot, Hiff. split; [done |].
    unfold _should_persist_per_attempted in Hpersist. rewrite orb_false_r in Hpersist.
    by destruct (AggregatedScore.first_attempted _).
Qed.

Lemma visible_blocks_locators (self : CreateSubsectionGrade.t) :
  BlockRecord.locator <$> _get_visible_blocks self
  = keys (CreateSubsectionGrade.problem_scores self).
Proof.
  unfold _get_visible_blocks, keys, iteritems.
  induction (CreateSubsectionGrade.problem_scores self) as [|[k v] d IH]; [done |].
  csimpl. by f_equal.
Qed.

Lemma problem_scores_ordered_keys
    (subsection : Subsection) (course_structure : BlockStructure)
    (submissions_scores : SubmissionsScores) (csm_scores : CsmScores) :
  exists self,
    create_init subsection course_structure submissions_scores csm_scores = Ok self
    /\ NoDup (keys (CreateSubsectionGrade.problem_scores self))
    /\ keys (CreateSubsectionGrade.problem_scores self)
         `sublist_of` traversal_of course_structure (location subsection).
Proof.
  eexists. split; [apply create_init_ok |]. simpl. split.
  - apply NoDup_keys_fill, NoDup_nil_2.
  - destruct (keys_fill (@Datatypes.id UsageKey)
                (scored_block get_score course_structure submissions_scores csm_scores None)
                (traversal_of course_structure (location subsection)) [])
      as (news & -> & Hsub).
    { intros a k v. apply scored_block_key. }
    by rewrite list_fmap_id in Hsub.
Qed.

(** X6: the visible blocks that a freshly computed grade hands to the
    persistence layer are one block record per problem score, in the order
    of the mapping, each with the key, weight, raw possible points and
    graded flag of its score; their locators are unique and follow the
    post-order traversal. *)
Theorem visible_blocks_follow_problem_scores
    (subsection : Subsection) (course_structure : BlockStructure)
    (submissions_scores : SubmissionsScores) (csm_scores : CsmScores) :
  exists self,
    create_init subsection course_structure submissions_scores csm_scores = Ok self
    /\ BlockRecord.locator <$> _get_visible_blocks self
       = keys (CreateSubsectionGrade.problem_scores self)
    /\ length (_get_visible_blocks self) = length (CreateSubsectionGrade.problem_scores self)
    /\ NoDup (BlockRecord.locator <$> _get_visible_blocks self)
    /\ (BlockRecord.locator <$> _get_visible_blocks self)
         `sublist_of` traversal_of course_structure (location subsection)
    /\ (forall record,
          record ∈ _get_visible_blocks self
          <-> exists score,
                (BlockRecord.locator record, score) ∈ CreateSubsectionGrade.problem_scores self
                /\ BlockRecord.weight record = ProblemScore.weight score
                /\ BlockRecord.raw_possible record = ProblemScore.raw_possible score
                /\ BlockRecord.graded record = ProblemScore.graded score).
Proof.
  destruct (problem_scores_ordered_keys subsection course_structure submissions_scores
              csm_scores) as (self & Hinit & Hnodup & Hsub).
  exists self. split; [done |]. rewrite visible_blocks_locators.
  split_and!; [done | | done | done |].
  - unfold _get_visible_blocks, iteritems. by rewrite length_map.
  - intros record. unfold _get_visible_blocks, iteritems.
    rewrite list_elem_of_In, in_map_iff. split.
    + intros ([k score] & <- & Hin). exists score. simpl.
      by rewrite list_elem_of_In.
    + intros (score & Hin & Hw & Hr & Hg).
      exists (BlockRecord.locator record, score). simpl.
      rewrite <- list_elem_of_In. split; [|done].
      destruct record. simpl in *. by subst.
Qed.

(** X7: a grade read back from a record that holds the parameters
    persisted for a freshly computed grade has that grade's earned and
    possible points in both totals and the same [percent_graded]; both of
    its totals carry the first attempt of the computed grade's all-total,
    so its [attempted_graded] says whether anything was attempted; and its
    problem scores have keys among the computed grade's, in their order. *)
Theorem read_back_persisted_grade
    (created : CreateSubsectionGrade.t) (student : Student)
    (model : PersistentSubsectionGrade.t) (subsection : Subsection)
    (factory : SubsectionGradeFactory) :
  persisted_as (_persisted_model_params created student) model ->
  let computed := CreateSubsectionGrade.super created in
  let read := read_init subsection model factory in
  let restored := ReadSubsectionGrade.super read in
  AggregatedScore.earned (NonZeroSubsectionGrade.all_total restored)
    = AggregatedScore.earned (NonZeroSubsectionGrade.all_total computed)
  /\ AggregatedScore.possible (NonZeroSubsectionGrade.all_total restored)
     = AggregatedScore.possible (NonZeroSubsectionGrade.all_total computed)
  /\ AggregatedScore.earned (NonZeroSubsectionGrade.graded_total restored)
     = AggregatedScore.earned (NonZeroSubsectionGrade.graded_total computed)
  /\ AggregatedScore.possible (NonZeroSubsectionGrade.graded_total restored)
     = AggregatedScore.possible (NonZeroSubsectionGrade.graded_total computed)
  /\ NonZeroSubsectionGrade.percent_graded restored
     = NonZeroSubsectionGrade.percent_graded computed
  /\ AggregatedScore.first_attempted (NonZeroSubsectionGrade.all_total restored)
     = AggregatedScore.first_attempted (NonZeroSubsectionGrade.all_total computed)
  /\ AggregatedScore.first_attempted (NonZeroSubsectionGrade.graded_total restored)
     = AggregatedScore.first_attempted (NonZeroSubsectionGrade.all_total computed)
  /\ NonZeroSubsectionGrade.attempted_graded restored
     = _should_persist_per_attempted created false
  /\ exists m,
       fst (read_problem_scores read) = Ok m
       /\ keys m `sublist_of` keys (CreateSubsectionGrade.problem_scores created).
Proof.
  intros (Hea & Hpa & Heg & Hpg & Hfa & Hvb) computed read restored.
  simpl in Hea, Hpa, Heg, Hpg, Hfa, Hvb.
  split_and!; try done.
  - unfold NonZeroSubsectionGrade.percent_graded. simpl. by rewrite Heg, Hpg.
  - unfold NonZeroSubsectionGrade.attempted_graded, _should_persist_per_attempted.
    simpl. rewrite Hfa. fold computed. by rewrite orb_false_r.
  - eexists. unfold read. rewrite read_problem_scores_fresh by done.
    split; [done |]. simpl.
    destruct (keys_fill BlockRecord.locator (stored_block get_score factory)
                (PersistentSubsectionGrade.visible_blocks model) [])
      as (news & -> & Hsub).
    { intros a k v. apply scored_block_key. }
    by rewrite Hvb, visible_blocks_locators in Hsub.
Qed.

End MoreGrades.

Section MoreExampleGrades.
Import subsection_grade.

Local Abbreviation example_zero_init :=
  (ZeroSubsectionGrade_init Examples.display_name_with_default_escaped
     Examples.url_name_for_block).
Local Abbreviation example_create_init :=
  (CreateSubsectionGrade_init Examples.display_name_with_default_escaped
     Examples.url_name_for_block Examples.possibly_scored Examples.post_order_traversal
     Examples.get_score).
Local Abbreviation example_zero_problem_scores :=
  (ZeroSubsectionGrade_problem_scores Examples.possibly_scored Examples.post_order_traversal
     Examples.get_score).
Local Abbreviation example_zero_all_total :=
  (ZeroSubsectionGrade_all_total Examples.possibly_scored Examples.post_order_traversal
     Examples.get_score).
Local Abbreviation example_zero_graded_total :=
  (ZeroSubsectionGrade_graded_total Examples.possibly_scored Examples.post_order_traversal
     Examples.get_score).
Local Abbreviation example_course_data := {| structure := Examples.course |}.

(** The example course has every block of its traversal, so its zero-value
    grade is the grade computed from empty score sources. *)
Lemma zero_grade_is_create_without_scores_witness :
  all_present Examples.course
    (Examples.post_order_traversal Examples.course Examples.possibly_scored "homework1") = true
  /\ exists created self1 self2 self3,
       example_create_init Examples.homework1 Examples.course ∅ ∅ = Ok created
       /\ example_zero_problem_scores (example_zero_init Examples.homework1 example_course_data)
          = (Ok (CreateSubsectionGrade.problem_scores created), self1)
       /\ example_zero_all_total (example_zero_init Examples.homework1 example_course_data)
          = (Ok (NonZeroSubsectionGrade.all_total (CreateSubsectionGrade.super created)), self2)
       /\ example_zero_graded_total (example_zero_init Examples.homework1 example_course_data)
          = (Ok (NonZeroSubsectionGrade.graded_total (CreateSubsectionGrade.super created)),
             self3).
Proof.
  split; [reflexivity |].
  apply (zero_grade_is_create_without_scores
           Examples.display_name_with_default_escaped Examples.url_name_for_block
           Examples.possibly_scored Examples.post_order_traversal Examples.get_score
           Examples.homework1 example_course_data).
  reflexivity.
Defined.

Lemma zero_totals_cached_after_first_read_witness :
  all_present Examples.course
    (Examples.post_order_traversal Examples.course Examples.possibly_scored "homework1") = true
  /\ exists total graded m self',
       example_zero_all_total (example_zero_init Examples.homework1 example_course_data)
         = (Ok total, self')
       /\ ZeroSubsectionGrade.problem_scores_cache self' = Some m
       /\ ZeroSubsectionGrade._aggregate_scores_cache self' = Some (total, graded)
       /\ (total, graded) = graders.aggregate_scores (values m)
       /\ example_zero_problem_scores self' = (Ok m, self')
       /\ example_zero_all_total self' = (Ok total, self')
       /\ example_zero_graded_total self' = (Ok graded, self').
Proof.
  split; [reflexivity |].
  apply (zero_totals_cached_after_first_read
           Examples.display_name_with_default_escaped Examples.url_name_for_block
           Examples.possibly_scored Examples.post_order_traversal Examples.get_score
           Examples.homework1 example_course_data).
  reflexivity.
Defined.

(** The grade of a learner who attempted only the practice problem, read
    back from the record of its persisted parameters. *)
Lemma read_back_persisted_grade_witness :
  persisted_as (_persisted_model_params MoreExamples.practice_grade MoreExamples.learner)
    (MoreExamples.record_of
       (_persisted_model_params MoreExamples.practice_grade MoreExamples.learner))
  /\ NonZeroSubsectionGrade.attempted_graded
       (ReadSubsectionGrade.super
          (ReadSubsectionGrade_init Examples.display_name_with_default_escaped
             Examples.url_name_for_block Examples.homework1
             (MoreExamples.record_of
                (_persisted_model_params MoreExamples.practice_grade MoreExamples.learner))
             MoreExamples.factory))
     = _should_persist_per_attempted MoreExamples.practice_grade false.
Proof.
  split; [by repeat split |].
  apply (read_back_persisted_grade
           Examples.display_name_with_default_escaped Examples.url_name_for_block
           Examples.get_score
           MoreExamples.practice_grade MoreExamples.learner
           (MoreExamples.record_of
              (_persisted_model_params MoreExamples.practice_grade MoreExamples.learner))
           Examples.homework1 MoreExamples.factory).
  by repeat split.
Defined.

(** In that example the computed grade has no graded attempt, and the
    grade read back says it has one. *)
Example read_back_attempted_graded_differs :
  NonZeroSubsectionGrade.attempted_graded
    (CreateSubsectionGrade.super MoreExamples.practice_grade) = false
  /\ NonZeroSubsectionGrade.attempted_graded
       (ReadSubsectionGrade.super
          (ReadSubsectionGrade_init Examples.display_name_with_default_escaped
             Examples.url_name_for_block Examples.homework1
             (MoreExamples.record_of
                (_persisted_model_params MoreExamples.practice_grade MoreExamples.learner))
             MoreExamples.factory))
     = true.
Proof. by split. Qed.

(** A bulk call over an attempted grade, a missing grade and an
    unattempted grade persists the attempted one only. *)
Example bulk_create_models_logs_attempted :
  snd (bulk_create_models _ MoreExamples.bulk_create_grades MoreExamples.learner
         [Some MoreExamples.practice_grade; None; Some MoreExamples.unattempted_grade]
         "course-v1:edX+Demo+2017" [])
  = [[_persisted_model_params MoreExamples.practice_grade MoreExamples.learner]].
Proof. reflexivity. Qed.

End MoreExampleGrades.

(** ** More on the course-overview handlers *)

Section MoreSignals.
Import course_overviews.

Lemma List_filter_idemp {A} (P : A -> bool) (l : list A) :
  List.filter P (List.filter P l) = List.filter P l.
Proof.
  induction l as [|x l IH]; simpl; [done |].
  destruct (P x) eqn:HP; simpl; [|done]. by rewrite HP, IH.
Qed.

Lemma List_filter_comm {A} (P Q : A -> bool) (l : list A) :
  List.filter P (List.filter Q l) = List.filter Q (List.filter P l).
Proof.
  induction l as [|x l IH]; simpl; [done |].
  destruct (P x) eqn:HP, (Q x) eqn:HQ; simpl; rewrite ?HP, ?HQ, IH; done.
Qed.

Lemma List_filter_all {A} (P : A -> bool) (l : list A) :
  (forall x, x ∈ l -> P x = true) -> List.filter P l = l.
Proof.
  induction l as [|x l IH]; simpl; [done |]. intros Hall.
  rewrite (Hall x) by (by left). f_equal. apply IH. intros y Hy. apply Hall. by right.
Qed.

(** X8: the delete handler changes nothing in the overview table when
    the course has no cached overview; handling the same deletion twice
    is the same as handling it once; and the deletions of two courses
    can be handled in either order. *)
Theorem course_delete_idempotent (course_key other_key : CourseKey) (w : World) :
  let w1 := snd (_listen_for_course_delete course_key w) in
  ((forall row, row ∈ overviews w -> CourseOverview.id row <> course_key) ->
   overviews w1 = overviews w)
  /\ _listen_for_course_delete course_key w1 = (Ok tt, w1)
  /\ snd (_listen_for_course_delete other_key w1)
     = snd (_listen_for_course_delete course_key
              (snd (_listen_for_course_delete other_key w))).
Proof.
  intros w1. split_and!.
  - intros Hnone. simpl. apply List_filter_all. intros row Hrow.
    apply negb_true_iff, bool_decide_eq_false. by apply Hnone.
  - unfold w1, _listen_for_course_delete, bind, objects_filter_id_delete,
      remove_deleted_items, modify, set_about_index, set_overviews. simpl.
    rewrite List_filter_idemp. do 2 f_equal.
    apply set_eq. intros k. rewrite !elem_of_difference. tauto.
  - unfold w1, _listen_for_course_delete, bind, objects_filter_id_delete,
      remove_deleted_items, modify, set_about_index, set_overviews. simpl.
    rewrite List_filter_comm. f_equal.
    apply set_eq. intros k. rewrite !elem_of_difference. tauto.
Qed.

Variable load_from_module_store : CourseKey -> M World CourseOverview.t.

Lemma publish_without_cached_overview (course_key : CourseKey) (w : World) :
  (forall row, row ∈ overviews w -> CourseOverview.id row <> course_key) ->
  _listen_for_course_publish load_from_module_store course_key w
  = match load_from_module_store course_key w with
    | (Ok _, w') => (Ok tt, w')
    | (Raise e, w') => (Raise e, w')
    end.
Proof.
  intros Hnone.
  destruct (get_from_ids_if_exists_lookup course_key w) as (found & Hget & _ & Hsome).
  unfold _listen_for_course_publish, bind. rewrite Hget.
  destruct (found !! course_key) as [p|] eqn:Hfound.
  - destruct Hsome as [Hsome _]. destruct Hsome as (row & Hrow & Hid); [by eauto |].
    by destruct (Hnone row Hrow).
  - by destruct (load_from_module_store course_key w) as [[updated|e] w'].
Qed.

(** X9: a course that is published right after its deletion was handled
    has no cached overview to compare with, so the publish handler sends
    no signal of its own: it ends in the world that the reload leaves,
    whatever overview the reload returns, and raises what the reload
    raises. *)
Theorem publish_after_delete_sends_nothing (course_key : CourseKey) (w : World) :
  let w1 := snd (_listen_for_course_delete course_key w) in
  _listen_for_course_publish load_from_module_store course_key w1
  = match load_from_module_store course_key w1 with
    | (Ok _, w2) => (Ok tt, w2)
    | (Raise e, w2) => (Raise e, w2)
    end.
Proof.
  intros w1. apply publish_without_cached_overview.
  intros row Hrow. simpl in Hrow.
  apply elem_of_List_filter in Hrow as [_ Hid].
  by apply negb_true_iff, bool_decide_eq_false in Hid.
Qed.

End MoreSignals.

(** ** The test configuration *)

Section Conftest.
Import conftest.
#[local] Set Warnings "-clear-no-such-hyp".

(** X10: [pytest_configure] does nothing under [--help]; otherwise it
    disables contracts exactly when [ENABLE_CONTRACTS] is unset or empty,
    raises [AttributeError] exactly when [DJANGO_SETTINGS_MODULE] is
    unset, and else imports and then runs one startup module:
    [cms.startup] when the settings module's name starts with [cms],
    [lms.startup] when it does not. *)
Theorem pytest_configure_effects (config : Config) (environ : gmap string string) :
  let calls := fst (pytest_configure config environ) in
  let outcome := snd (pytest_configure config environ) in
  (getoption_help config = true -> calls = [] /\ outcome = Returned)
  /\ (outcome = RaisedAttributeError
      <-> getoption_help config = false /\ environ !! "DJANGO_SETTINGS_MODULE" = None)
  /\ (contracts_disable_all ∈ calls
      <-> getoption_help config = false
          /\ (environ !! "ENABLE_CONTRACTS" = None
              \/ environ !! "ENABLE_CONTRACTS" = Some EmptyString))
  /\ (forall name,
        startup_run name ∈ calls
        <-> getoption_help config = false
            /\ exists settings_module,
                 environ !! "DJANGO_SETTINGS_MODULE" = Some settings_module
                 /\ name = if String.prefix "cms" settings_module
                           then "cms.startup" else "lms.startup")
  /\ (forall name,
        startup_run name ∈ calls ->
        calls = (if enable_contracts environ then [] else [contracts_disable_all])
                ++ [import_module name; startup_run name]).
Proof.
  intros calls outcome. subst calls outcome.
  unfold pytest_configure, enable_contracts.
  destruct (getoption_help config);
    destruct (environ !! "ENABLE_CONTRACTS") as [[|c rest]|];
    destruct (environ !! "DJANGO_SETTINGS_MODULE") as [settings_module|];
    simpl; split_and!; try done; try (intros name); set_unfold; naive_solver.
Qed.

(** A Studio run with [ENABLE_CONTRACTS=0] keeps contracts enabled, and
    a run without settings fails after it disabled them. *)
Example pytest_configure_studio :
  pytest_configure {| getoption_help := false |} MoreExamples.studio_environ
    = ([import_module "cms.startup"; startup_run "cms.startup"], Returned)
  /\ pytest_configure {| getoption_help := false |} ∅
     = ([contracts_disable_all], RaisedAttributeError)
  /\ pytest_configure {| getoption_help := true |} ∅ = ([], Returned).
Proof. by vm_compute. Qed.

End Conftest.
